(** * D-ASE: the universal node engine and the analog signal-controlled node

    A shallow embedding of

    - [universal_node_engine.cpp] (namespace [DASE]): the six-role
      [UniversalNode] with its union [FunctionData], and the
      [UniversalNodeEngine] that owns a vector of nodes;
    - [analog_universal_node_engine_fixed.cpp]: [AnalogUniversalNode] and its
      [processSignal], where a control signal selects the mode.

    [double] is the kernel's binary64 ([PrimFloat.float]); C++ [float] is
    binary32, given by [SpecFloat] at precision 24; unsigned integers of
    width [w] are [Z] reduced modulo [2^w]. *)

From Stdlib Require Import ZArith List Bool Lia Floats.
Import ListNotations.

#[local] Set Warnings "-inexact-float".
#[local] Open Scope Z_scope.

(** ** Machine integers *)

Definition wrap (w : Z) (v : Z) : Z := v mod 2 ^ w.

Definition uint8 (v : Z) : Z := wrap 8 v.
Definition uint16 (v : Z) : Z := wrap 16 v.
Definition uint32 (v : Z) : Z := wrap 32 v.
Definition uint64 (v : Z) : Z := wrap 64 v.

(** [static_cast<int16_t>] of an unsigned value: two's complement. *)
Definition int16 (v : Z) : Z :=
  let u := wrap 16 v in if u <? 2 ^ 15 then u else u - 2 ^ 16.

(** [static_cast<int>] of an unsigned value: two's complement. *)
Definition int32 (v : Z) : Z :=
  let u := wrap 32 v in if u <? 2 ^ 31 then u else u - 2 ^ 32.

(** The number of iterations of
    [for (int i = 0; i < static_cast<int>(size); i++)]. *)
Definition int_iterations (size : nat) : nat := Z.to_nat (int32 (Z.of_nat size)).

(** ** Floating point *)

Definition double := float.
Bind Scope float_scope with double.

(** binary32: the values of C++ [float]. *)
Definition float32 := spec_float.

Definition f32_prec : Z := 24.
Definition f32_emax : Z := 128.

Definition f32_add : float32 -> float32 -> float32 := SFadd f32_prec f32_emax.
Definition f32_mul : float32 -> float32 -> float32 := SFmul f32_prec f32_emax.

(** [static_cast<float>(d)]: round to nearest even into binary32. *)
Definition f32_of_double (d : double) : float32 :=
  match Prim2SF d with
  | S754_finite s m e => binary_normalize f32_prec f32_emax (cond_Zopp s (Zpos m)) e s
  | other => other
  end.

(** [static_cast<double>(f)]: every binary32 value is a binary64 value. *)
Definition double_of_f32 (f : float32) : double := SF2Prim f.

(** Integer to [float] and to [double]. *)
Definition f32_of_Z (n : Z) : float32 := binary_normalize f32_prec f32_emax n 0 false.
Definition double_of_Z (n : Z) : double := SF2Prim (binary_normalize prec emax n 0 false).

(** The literals [0.0f], [0.1f], [0.8f] and [0.25f]. *)
Definition f32_zero : float32 := S754_zero false.
Definition f32_0_1 : float32 := S754_finite false 13421773 (-27).
Definition f32_0_8 : float32 := S754_finite false 13421773 (-24).
Definition f32_0_25 : float32 := S754_finite false 8388608 (-25).

(** [f == 0.0f]: a zero of either sign. *)
Definition is_zero32 (f : float32) : bool :=
  match f with
  | S754_zero _ => true
  | _ => false
  end.

(** Truncation toward zero of a finite [double]. *)
Definition trunc_Z (d : double) : option Z :=
  match Prim2SF d with
  | S754_zero _ => Some 0
  | S754_finite s m e => Some (cond_Zopp s (Z.shiftl (Zpos m) e))
  | S754_infinity _ | S754_nan => None
  end.

(** What the program takes from its platform: [sinf] of the C library, and
    the integer a floating-to-integer conversion yields when the truncated
    value is not representable in the destination type (the language leaves
    that case open; the compiled code returns some value of the type). *)
Class Platform := {
  sinf : float32 -> float32;
  unrepresentable : Z -> double -> Z
}.

Section Conversions.
Context {P : Platform}.

(** [static_cast<uintN_t>(d)] for [N = w]. *)
Definition double_to_uint (w : Z) (d : double) : Z :=
  match trunc_Z d with
  | Some t => if (0 <=? t) && (t <? 2 ^ w) then t else wrap w (unrepresentable w d)
  | None => wrap w (unrepresentable w d)
  end.

End Conversions.

(** ** The universal node ([namespace DASE]) *)

Module DASE.

Inductive NodeType : Set :=
| WORKER      (* 0: AMP, SUMMER, INTEGRATE analog functions *)
| COMM        (* 1: communication routing *)
| VECTOR      (* 2: vector storage and similarity *)
| PROCESSOR   (* 3: CPU instruction emulation *)
| MARKOV      (* 4: statistical learning *)
| KERNEL.     (* 5: influence propagation *)

Inductive Priority : Set := LOW | NORMAL | HIGH | CRITICAL.

Definition NodeType_eqb (a b : NodeType) : bool :=
  match a, b with
  | WORKER, WORKER | COMM, COMM | VECTOR, VECTOR
  | PROCESSOR, PROCESSOR | MARKOV, MARKOV | KERNEL, KERNEL => true
  | _, _ => false
  end.

(** *** Function-specific data *)

Record WorkerData := {
  gain : double;
  accumulator : double;
  previous_value : double
}.

Record CommData := {
  message_count : Z;            (* uint32_t *)
  routing_table : list Z        (* uint8_t[6] *)
}.

Record VectorData := {
  vdata : list float32;         (* float data[8] *)
  threshold : float32
}.

Record ProcessorData := {
  registers0 : Z;               (* uint32_t registers[4] *)
  registers1 : Z;
  registers2 : Z;
  registers3 : Z;
  pc : Z                        (* uint16_t *)
}.

Record MarkovData := {
  state : Z;                    (* uint8_t *)
  transitions : list float32    (* float[4] *)
}.

Record KernelData := {
  influence : double;
  decay : double
}.

(** The default member initializers: what [WorkerData()], [CommData()], ...
    construct. *)
Definition WorkerData_init : WorkerData :=
  {| gain := 1.0; accumulator := 0.0; previous_value := 0.0 |}.
Definition CommData_init : CommData :=
  {| message_count := 0; routing_table := repeat 0 6 |}.
Definition VectorData_init : VectorData :=
  {| vdata := repeat f32_zero 8; threshold := f32_0_8 |}.
Definition ProcessorData_init : ProcessorData :=
  {| registers0 := 0; registers1 := 0; registers2 := 0; registers3 := 0; pc := 0 |}.
Definition MarkovData_init : MarkovData :=
  {| state := 0; transitions := repeat f32_0_25 4 |}.
Definition KernelData_init : KernelData :=
  {| influence := 1.0; decay := 0.9 |}.

(** [union FunctionData]: one member is active at a time. *)
Inductive FunctionData :=
| worker (w : WorkerData)
| comm (c : CommData)
| vector (v : VectorData)
| processor (p : ProcessorData)
| markov (m : MarkovData)
| kernel (k : KernelData).

(** The role whose member is the active one. *)
Definition active_member (d : FunctionData) : NodeType :=
  match d with
  | worker _ => WORKER
  | comm _ => COMM
  | vector _ => VECTOR
  | processor _ => PROCESSOR
  | markov _ => MARKOV
  | kernel _ => KERNEL
  end.

Record UniversalNode := {
  current_type : NodeType;
  value : double;
  priority : Priority;
  data : FunctionData;
  x : Z; y : Z; z : Z;          (* int16_t *)
  node_id : Z;                  (* uint16_t *)
  switch_count : Z;             (* uint64_t *)
  execution_count : Z           (* uint64_t *)
}.

(** [UniversalNode(id, px, py, pz)]. *)
Definition new_UniversalNode (id px py pz : Z) : UniversalNode :=
  {| current_type := WORKER; value := 0.0; priority := NORMAL;
     data := worker WorkerData_init;
     x := px; y := py; z := pz; node_id := id;
     switch_count := 0; execution_count := 0 |}.

(** The tag names the active member of the union. *)
Definition tag_matches (n : UniversalNode) : Prop :=
  active_member (data n) = current_type n.

Section Node.
Context {P : Platform}.

(** [for (int i = 0; i < 8; i++) data.vector.data[i] = sinf((x + y + z + i) * 0.1f);] *)
Definition position_vector (px py pz : Z) : list float32 :=
  map (fun i => sinf (f32_mul (f32_of_Z (px + py + pz + i)) f32_0_1))
      [0; 1; 2; 3; 4; 5; 6; 7].

(** [bool switchToType(NodeType new_type)]: the result and the node after
    the call. *)
Definition switchToType (n : UniversalNode) (new_type : NodeType)
  : bool * UniversalNode :=
  if NodeType_eqb (current_type n) new_type then (false, n)
  else
    let current_val := value n in
    let new_data :=
      match new_type with
      | WORKER =>
          let w := WorkerData_init in
          worker {| gain := gain w; accumulator := current_val;
                    previous_value := previous_value w |}
      | COMM => comm CommData_init
      | VECTOR =>
          let v := VectorData_init in
          vector {| vdata := position_vector (x n) (y n) (z n);
                    threshold := threshold v |}
      | PROCESSOR =>
          let p := ProcessorData_init in
          processor {| registers0 := double_to_uint 32 current_val;
                       registers1 := registers1 p; registers2 := registers2 p;
                       registers3 := registers3 p; pc := pc p |}
      | MARKOV =>
          let m := MarkovData_init in
          markov {| state := uint8 (double_to_uint 8 current_val mod 4);
                    transitions := transitions m |}
      | KERNEL =>
          let k := KernelData_init in
          kernel {| influence := current_val; decay := decay k |}
      end in
    (true,
     {| current_type := new_type; value := value n; priority := priority n;
        data := new_data;
        x := x n; y := y n; z := z n; node_id := node_id n;
        switch_count := uint64 (switch_count n + 1);
        execution_count := execution_count n |}).

(** The [VECTOR] loop of [execute]:
    [for (i < 8) similarity += data.vector.data[i] * input_f;] *)
Definition similarity_loop (dat : list float32) (input_f : float32) : float32 :=
  fold_left (fun similarity d => f32_add similarity (f32_mul d input_f)) dat f32_zero.

(** The role-specific part of [execute]: the new contents of the union and
    [result]. Reading a member that is not the active one has no meaning:
    [None]. *)
Definition execute_role (t : NodeType) (d : FunctionData) (input : double)
  : option (FunctionData * double) :=
  match t, d with
  | WORKER, worker w =>
      let result := (input * gain w)%float in
      let acc := (accumulator w + result * 0.01)%float in
      Some (worker {| gain := gain w; accumulator := acc;
                      previous_value := previous_value w |},
            (result + acc)%float)
  | COMM, comm c =>
      let mc := uint32 (message_count c + 1) in
      Some (comm {| message_count := mc; routing_table := routing_table c |},
            (input + double_of_Z mc * 0.01)%float)
  | VECTOR, vector v =>
      let similarity := similarity_loop (vdata v) (f32_of_double input) in
      Some (vector v, double_of_f32 similarity)
  | PROCESSOR, processor p =>
      let r1 := uint32 (registers0 p + double_to_uint 32 input) in
      Some (processor {| registers0 := registers0 p; registers1 := r1;
                         registers2 := registers2 p; registers3 := registers3 p;
                         pc := uint16 (pc p + 1) |},
            double_of_Z r1)
  | MARKOV, markov m =>
      let new_state := uint8 ((double_to_uint 8 (input * 4)%float + state m) mod 4) in
      Some (markov {| state := new_state; transitions := transitions m |},
            (double_of_Z new_state + input)%float)
  | KERNEL, kernel k =>
      let infl := (influence k * decay k)%float in
      Some (kernel {| influence := infl; decay := decay k |},
            (infl + input)%float)
  | _, _ => None
  end.

(** [double execute(double input)]: the result and the node after the call. *)
Definition execute (n : UniversalNode) (input : double)
  : option (double * UniversalNode) :=
  match execute_role (current_type n) (data n) input with
  | Some (d, result) =>
      Some (result,
            {| current_type := current_type n; value := result;
               priority := priority n; data := d;
               x := x n; y := y n; z := z n; node_id := node_id n;
               switch_count := switch_count n;
               execution_count := uint64 (execution_count n + 1) |})
  | None => None
  end.

(** *** The pieces of a role switch

    [switchToType] clears the union, default-constructs the member of the
    new role and then stores into the fields the role seeds. *)

(** The member [XData()] constructs for role [t]. *)
Definition init_block (t : NodeType) : FunctionData :=
  match t with
  | WORKER => worker WorkerData_init
  | COMM => comm CommData_init
  | VECTOR => vector VectorData_init
  | PROCESSOR => processor ProcessorData_init
  | MARKOV => markov MarkovData_init
  | KERNEL => kernel KernelData_init
  end.

(** The member of role [t] with every field zero: the storage after
    [memset(&data, 0, sizeof(data))] alone. *)
Definition zero_block (t : NodeType) : FunctionData :=
  match t with
  | WORKER => worker {| gain := 0.0; accumulator := 0.0; previous_value := 0.0 |}
  | COMM => comm {| message_count := 0; routing_table := repeat 0 6 |}
  | VECTOR => vector {| vdata := repeat f32_zero 8; threshold := f32_zero |}
  | PROCESSOR => processor ProcessorData_init
  | MARKOV => markov {| state := 0; transitions := repeat f32_zero 4 |}
  | KERNEL => kernel {| influence := 0.0; decay := 0.0 |}
  end.

(** The stores that follow the construction: the fields each role seeds
    from the captured value [current_val] (or, for [VECTOR], from the
    position). *)
Definition seed (current_val : double) (px py pz : Z) (d : FunctionData)
  : FunctionData :=
  match d with
  | worker w =>
      worker {| gain := gain w; accumulator := current_val;
                previous_value := previous_value w |}
  | comm c => comm c
  | vector v =>
      vector {| vdata := position_vector px py pz; threshold := threshold v |}
  | processor p =>
      processor {| registers0 := double_to_uint 32 current_val;
                   registers1 := registers1 p; registers2 := registers2 p;
                   registers3 := registers3 p; pc := pc p |}
  | markov m =>
      markov {| state := uint8 (double_to_uint 8 current_val mod 4);
                transitions := transitions m |}
  | kernel k => kernel {| influence := current_val; decay := decay k |}
  end.

(** Dot product of two binary32 vectors, accumulated from the left. *)
Definition dot_f32 (a b : list float32) : float32 :=
  fold_left (fun s pq => f32_add s (f32_mul (fst pq) (snd pq))) (combine a b) f32_zero.

(** A scalar broadcast into a uniform vector of [k] components. *)
Definition broadcast (k : nat) (s : float32) : list float32 := repeat s k.

(** The accumulator of a node whose worker member is active. *)
Definition accumulator_of (n : UniversalNode) : option double :=
  match data n with
  | worker w => Some (accumulator w)
  | _ => None
  end.

(** *** The engine *)

Record UniversalNodeEngine := {
  nodes : list UniversalNode;   (* std::vector<UniversalNode> *)
  active_nodes : Z              (* size_t *)
}.

(** The node [initialize] emplaces at index [i]. *)
Definition node_at (i : Z) : UniversalNode :=
  new_UniversalNode (uint16 i) (int16 (i mod 10)) (int16 ((i / 10) mod 10))
                    (int16 (i / 100)).

(** [void initialize(size_t node_count)]: the engine after the call. *)
Definition initialize (node_count : nat) : UniversalNodeEngine :=
  {| nodes := map (fun i => node_at (Z.of_nat i)) (seq 0 node_count);
     active_nodes := Z.of_nat node_count |}.

(** The loop of [executeWave], from index [i] on. *)
Fixpoint wave_loop (i : nat) (ns : list UniversalNode)
    (base_input total_output : double) : option (double * list UniversalNode) :=
  match ns with
  | [] => Some (total_output, [])
  | n :: rest =>
      let node_input := (base_input + double_of_Z (Z.of_nat i) * 0.1)%float in
      match execute n node_input with
      | Some (output, n') =>
          match wave_loop (S i) rest base_input (total_output + output)%float with
          | Some (total, rest') => Some (total, n' :: rest')
          | None => None
          end
      | None => None
      end
  end.

(** [double executeWave(double base_input)]: the result and the engine after
    the call. *)
Definition executeWave (e : UniversalNodeEngine) (base_input : double)
  : option (double * UniversalNodeEngine) :=
  match nodes e with
  | [] => Some (0.0%float, e)
  | _ :: _ =>
      match wave_loop 0 (nodes e) base_input 0.0 with
      | Some (total_output, ns) =>
          Some ((total_output / double_of_Z (Z.of_nat (length (nodes e))))%float,
                {| nodes := ns; active_nodes := active_nodes e |})
      | None => None
      end
  end.

Definition types : list NodeType :=
  [WORKER; COMM; VECTOR; PROCESSOR; MARKOV; KERNEL].

(** The loop of [performRoleSwitching], from index [i] on. *)
Fixpoint role_loop (i : nat) (ns : list UniversalNode) : list UniversalNode :=
  match ns with
  | [] => []
  | n :: rest =>
      let target_type := nth (i mod 6) types WORKER in
      snd (switchToType n target_type) :: role_loop (S i) rest
  end.

(** [void performRoleSwitching()]: the engine after the call. *)
Definition performRoleSwitching (e : UniversalNodeEngine) : UniversalNodeEngine :=
  match nodes e with
  | [] => e
  | _ :: _ => {| nodes := role_loop 0 (nodes e); active_nodes := active_nodes e |}
  end.

Definition getNodeCount (e : UniversalNodeEngine) : nat := length (nodes e).

(** [UniversalNode* getNode(size_t index)]: [None] is [nullptr]. *)
Definition getNode (e : UniversalNodeEngine) (index : nat) : option UniversalNode :=
  if (index <? length (nodes e))%nat then nth_error (nodes e) index else None.

(** *** The rest of the node and of the engine *)

(** The accessors. *)
Definition getType (n : UniversalNode) : NodeType := current_type n.
Definition getValue (n : UniversalNode) : double := value n.
Definition getSwitchCount (n : UniversalNode) : Z := switch_count n.
Definition getExecutionCount (n : UniversalNode) : Z := execution_count n.
Definition getID (n : UniversalNode) : Z := node_id n.

(** Successive calls of [execute] on one node, one per input: the results in
    order and the node after the last call. *)
Fixpoint execute_all (n : UniversalNode) (inputs : list double)
  : option (list double * UniversalNode) :=
  match inputs with
  | [] => Some ([], n)
  | input :: rest =>
      match execute n input with
      | Some (r, n') =>
          match execute_all n' rest with
          | Some (rs, n'') => Some (r :: rs, n'')
          | None => None
          end
      | None => None
      end
  end.

(** What [getPerformanceStats] prints. *)
Record PerformanceStats := {
  stat_nodes : nat;
  stat_total_switches : Z;      (* uint64_t *)
  stat_total_executions : Z;    (* uint64_t *)
  stat_avg_switches : Z
}.

(** The two sums of [getPerformanceStats]. *)
Definition total_switches (ns : list UniversalNode) : Z :=
  fold_left (fun total n => uint64 (total + getSwitchCount n)) ns 0.

Definition total_executions (ns : list UniversalNode) : Z :=
  fold_left (fun total n => uint64 (total + getExecutionCount n)) ns 0.

(** [void getPerformanceStats()]: the printed figures; nothing is printed
    for an engine without nodes. *)
Definition getPerformanceStats (e : UniversalNodeEngine) : option PerformanceStats :=
  match nodes e with
  | [] => None
  | _ :: _ =>
      Some {| stat_nodes := length (nodes e);
              stat_total_switches := total_switches (nodes e);
              stat_total_executions := total_executions (nodes e);
              stat_avg_switches :=
                total_switches (nodes e) / Z.of_nat (length (nodes e)) |}
  end.

(** The phases of [run_standalone_engine]: for each input a role switching
    phase, then a computational phase whose output is pushed on [results]. *)
Fixpoint role_wave_rounds (inputs : list double) (e : UniversalNodeEngine)
    (results : list double) : option (list double * UniversalNodeEngine) :=
  match inputs with
  | [] => Some (results, e)
  | input :: rest =>
      match executeWave (performRoleSwitching e) input with
      | Some (output, e') => role_wave_rounds rest e' (results ++ [output])
      | None => None
      end
  end.

(** [run_standalone_engine], up to the point where the results are written
    out: 10 nodes, 5 rounds, round [i] with input [2.0 + i * 0.5]. *)
Definition run_standalone_engine : option (list double * UniversalNodeEngine) :=
  role_wave_rounds
    (map (fun i => (2.0 + double_of_Z i * 0.5)%float) [0; 1; 2; 3; 4])
    (initialize 10) [].

End Node.
End DASE.

(** ** The analog signal-controlled node *)

Module Analog.

Record AnalogUniversalNode := {
  current_output : double;
  integrator_state : double;
  previous_input : double;
  feedback_gain : double;
  x : Z; y : Z; z : Z;          (* int16_t *)
  node_id : Z;                  (* uint16_t *)
  operation_count : Z           (* uint64_t *)
}.

(** The default member initializers. *)
Definition new_AnalogUniversalNode : AnalogUniversalNode :=
  {| current_output := 0.0; integrator_state := 0.0; previous_input := 0.0;
     feedback_gain := 1.0; x := 0; y := 0; z := 0; node_id := 0;
     operation_count := 0 |}.

(** [double processSignal(double input_signal, double control_signal,
    double aux_signal)]: the result and the node after the call. *)
Definition processSignal (n : AnalogUniversalNode)
    (input_signal control_signal aux_signal : double)
  : double * AnalogUniversalNode :=
  let count := uint64 (operation_count n + 1) in
  if (0.5 <? control_signal)%float then
    let st := (integrator_state n + input_signal * 0.1)%float in
    let result := (st * feedback_gain n)%float in
    (result,
     {| current_output := result; integrator_state := st;
        previous_input := previous_input n; feedback_gain := feedback_gain n;
        x := x n; y := y n; z := z n; node_id := node_id n;
        operation_count := count |})
  else if (control_signal <? -0.5)%float then
    let derivative := (input_signal - previous_input n)%float in
    let result := (derivative * feedback_gain n)%float in
    (result,
     {| current_output := result; integrator_state := integrator_state n;
        previous_input := input_signal; feedback_gain := feedback_gain n;
        x := x n; y := y n; z := z n; node_id := node_id n;
        operation_count := count |})
  else if (0.0 <? control_signal)%float then
    let result := (input_signal * (1.0 + control_signal) * feedback_gain n)%float in
    (result,
     {| current_output := result; integrator_state := integrator_state n;
        previous_input := previous_input n; feedback_gain := feedback_gain n;
        x := x n; y := y n; z := z n; node_id := node_id n;
        operation_count := count |})
  else
    let result :=
      (- input_signal * (1.0 + abs control_signal) * feedback_gain n)%float in
    (result,
     {| current_output := result; integrator_state := integrator_state n;
        previous_input := previous_input n; feedback_gain := feedback_gain n;
        x := x n; y := y n; z := z n; node_id := node_id n;
        operation_count := count |}).

(** The four modes of [processSignal], one per branch. *)
Inductive Mode : Set := Integrator | Differentiator | Amplifier | Inverter.

(** The branch the control signal selects. *)
Definition mode_of_control (control_signal : double) : Mode :=
  if (0.5 <? control_signal)%float then Integrator
  else if (control_signal <? -0.5)%float then Differentiator
  else if (0.0 <? control_signal)%float then Amplifier
  else Inverter.

(** What each mode computes: the result, the integrator state and the previous
    input after the call. *)
Definition mode_step (m : Mode) (n : AnalogUniversalNode)
    (input_signal control_signal : double) : double * double * double :=
  match m with
  | Integrator =>
      let st := (integrator_state n + input_signal * 0.1)%float in
      ((st * feedback_gain n)%float, st, previous_input n)
  | Differentiator =>
      (((input_signal - previous_input n) * feedback_gain n)%float,
       integrator_state n, input_signal)
  | Amplifier =>
      ((input_signal * (1.0 + control_signal) * feedback_gain n)%float,
       integrator_state n, previous_input n)
  | Inverter =>
      ((- input_signal * (1.0 + abs control_signal) * feedback_gain n)%float,
       integrator_state n, previous_input n)
  end.

(** [processSignal] as a dispatch on the selected mode. *)
Definition run_mode (m : Mode) (n : AnalogUniversalNode)
    (input_signal control_signal : double) : double * AnalogUniversalNode :=
  let '(result, st, prev) := mode_step m n input_signal control_signal in
  (result,
   {| current_output := result; integrator_state := st; previous_input := prev;
      feedback_gain := feedback_gain n;
      x := x n; y := y n; z := z n; node_id := node_id n;
      operation_count := uint64 (operation_count n + 1) |}).

(** *** The rest of the analog node, and the cellular engine *)

(** [std::clamp(v, lo, hi)]. *)
Definition clamp (v lo hi : double) : double :=
  if (v <? lo)%float then lo else if (hi <? v)%float then hi else v.

(** [void setFeedback(double feedback_coefficient)]. *)
Definition setFeedback (n : AnalogUniversalNode) (feedback_coefficient : double)
  : AnalogUniversalNode :=
  {| current_output := current_output n; integrator_state := integrator_state n;
     previous_input := previous_input n;
     feedback_gain := clamp feedback_coefficient 0.1 10.0;
     x := x n; y := y n; z := z n; node_id := node_id n;
     operation_count := operation_count n |}.

(** [void resetIntegrator()]. *)
Definition resetIntegrator (n : AnalogUniversalNode) : AnalogUniversalNode :=
  {| current_output := current_output n; integrator_state := 0.0;
     previous_input := 0.0; feedback_gain := feedback_gain n;
     x := x n; y := y n; z := z n; node_id := node_id n;
     operation_count := operation_count n |}.

Definition getOutput (n : AnalogUniversalNode) : double := current_output n.
Definition getIntegratorState (n : AnalogUniversalNode) : double := integrator_state n.

(** [std::sin] and [std::cos] of the C library. *)
Class Libm := {
  sin : double -> double;
  cos : double -> double
}.

Record AnalogCellularEngine := {
  nodes : list AnalogUniversalNode;
  system_frequency : double;
  noise_level : double
}.

(** The node the constructor leaves at index [i]. *)
Definition cell_at (i : Z) : AnalogUniversalNode :=
  {| current_output := 0.0; integrator_state := 0.0; previous_input := 0.0;
     feedback_gain := 1.0;
     x := int16 (i mod 10); y := int16 ((i / 10) mod 10); z := int16 (i / 100);
     node_id := uint16 i; operation_count := 0 |}.

(** [AnalogCellularEngine(size_t num_nodes)]. *)
Definition new_AnalogCellularEngine (num_nodes : nat) : AnalogCellularEngine :=
  {| nodes := map (fun i => cell_at (Z.of_nat i)) (seq 0 num_nodes);
     system_frequency := 1.0; noise_level := 0.001 |}.

Definition getNodeCount (e : AnalogCellularEngine) : nat := length (nodes e).

(** [void setSystemFeedback(double feedback_level)]: the loop index is an
    [int] and is compared with [static_cast<int>(nodes.size())], so it visits
    the first [int_iterations] nodes. *)
Definition setSystemFeedback (e : AnalogCellularEngine) (feedback_level : double)
  : AnalogCellularEngine :=
  let k := int_iterations (length (nodes e)) in
  {| nodes := map (fun n => setFeedback n feedback_level) (firstn k (nodes e))
              ++ skipn k (nodes e);
     system_frequency := system_frequency e; noise_level := noise_level e |}.

(** [void resetAllIntegrators()]. *)
Definition resetAllIntegrators (e : AnalogCellularEngine) : AnalogCellularEngine :=
  let k := int_iterations (length (nodes e)) in
  {| nodes := map resetIntegrator (firstn k (nodes e)) ++ skipn k (nodes e);
     system_frequency := system_frequency e; noise_level := noise_level e |}.

Section SignalWave.
Context {L : Libm}.

(** The auxiliary signal of pass [pass]: half the input plus five harmonics. *)
Definition aux_signal_of (input_signal : double) (pass : Z) : double :=
  fold_left
    (fun aux harmonic =>
       (aux + sin (input_signal * double_of_Z harmonic + double_of_Z pass * 0.1)
              * (0.1 / double_of_Z harmonic))%float)
    [1; 2; 3; 4; 5] (input_signal * 0.5)%float.

(** The 20 steps of spectral processing applied to an output. *)
Definition spectral (output : double) : double :=
  fold_left
    (fun out spec =>
       let out1 := (out + sin (out * double_of_Z (spec + 1) * 0.01) * 0.001)%float in
       (out1 * (1.0 + cos (double_of_Z spec * 0.05) * 0.001))%float)
    (map Z.of_nat (seq 0 20)) output.

(** One pass of node [i]: the running total and the node after it. *)
Definition pass_step (i : Z) (input_signal control_pattern : double)
    (st : double * AnalogUniversalNode) (pass : Z) : double * AnalogUniversalNode :=
  let control :=
    (control_pattern + sin (double_of_Z (i + pass) * 0.1) * 0.3)%float in
  let aux_signal := aux_signal_of input_signal pass in
  let r := processSignal (snd st) input_signal control aux_signal in
  ((fst st + spectral (fst r))%float, snd r).

(** The ten passes of node [i]. *)
Definition node_passes (i : Z) (input_signal control_pattern : double)
    (st : double * AnalogUniversalNode) : double * AnalogUniversalNode :=
  fold_left (pass_step i input_signal control_pattern)
            (map Z.of_nat (seq 0 10)) st.

(** The body of the loop over the nodes, run on [ns] from index [i] on, in
    index order (the order of the loop as written; the [omp] reduction may
    add the outputs in another order). *)
Fixpoint signal_loop (i : nat) (ns : list AnalogUniversalNode)
    (input_signal control_pattern total_output : double)
  : double * list AnalogUniversalNode :=
  match ns with
  | [] => (total_output, [])
  | n :: rest =>
      let st := node_passes (Z.of_nat i) input_signal control_pattern
                            (total_output, n) in
      let r := signal_loop (S i) rest input_signal control_pattern (fst st) in
      (fst r, snd st :: snd r)
  end.

(** [double processSignalWave(double input_signal, double control_pattern)]:
    the result and the engine after the call. *)
Definition processSignalWave (e : AnalogCellularEngine)
    (input_signal control_pattern : double) : double * AnalogCellularEngine :=
  let k := int_iterations (length (nodes e)) in
  let r := signal_loop 0 (firstn k (nodes e)) input_signal control_pattern 0.0 in
  ((fst r / (double_of_Z (Z.of_nat (length (nodes e))) * 10.0))%float,
   {| nodes := snd r ++ skipn k (nodes e);
      system_frequency := system_frequency e;
      noise_level := noise_level e |}).

(** [void performSignalSweep(double base_frequency)], with the function's
    static [time_counter] passed in and out. *)
Definition performSignalSweep (time_counter : double) (e : AnalogCellularEngine)
    (base_frequency : double) : double * AnalogCellularEngine :=
  let tc := (time_counter + 0.001)%float in
  let input_signal := sin (base_frequency * tc)%float in
  let control_pattern := (sin (tc * 0.1) * 0.5)%float in
  let r := processSignalWave e input_signal control_pattern in
  (tc,
   {| nodes := nodes (snd r);
      system_frequency := (system_frequency (snd r) + fst r * 0.001)%float;
      noise_level := noise_level (snd r) |}).

End SignalWave.

End Analog.

(** ** A sample platform

    [sinf] by its Taylor polynomial of degree 7, evaluated in binary64 and
    rounded to binary32; unrepresentable conversions keep the low bits of
    the truncated value (zero for infinities and NaN). *)

Definition taylor_sin (a : double) : double :=
  let a2 := (a * a)%float in
  (a * (1.0 - a2 / 6.0 * (1.0 - a2 / 20.0 * (1.0 - a2 / 42.0))))%float.

Definition low_bits (w : Z) (d : double) : Z :=
  match trunc_Z d with
  | Some t => t
  | None => 0
  end.

Definition sample_platform : Platform :=
  {| sinf := fun f => f32_of_double (taylor_sin (double_of_f32 f));
     unrepresentable := low_bits |}.

(** A sample C library for the analog engine: sine as above, cosine as the
    sine shifted by a quarter period. *)
Definition sample_libm : Analog.Libm :=
  {| Analog.sin := taylor_sin;
     Analog.cos := fun a => taylor_sin (a + 1.5707963267948966)%float |}.

(** ** The conversions of g++ on x86-64

    [static_cast<uint32_t>(d)] is compiled to [cvttsd2si] into a 64-bit
    register of which the low 32 bits are kept, and the conversion to a
    narrower unsigned type to [cvttsd2si] into a 32-bit register. The
    instruction yields the truncated value when that fits the signed
    register, and the register's most negative value otherwise (also for
    infinities and NaN). *)

Definition cvttsd2si (bits : Z) (d : double) : Z :=
  match trunc_Z d with
  | Some t =>
      if (- 2 ^ (bits - 1) <=? t) && (t <? 2 ^ (bits - 1)) then t
      else - 2 ^ (bits - 1)
  | None => - 2 ^ (bits - 1)
  end.

(** The polynomial above, except that where it rounds to zero the argument is
    returned: like the sine of the C library, it vanishes at zero only. *)
Definition guarded_sinf (f : float32) : float32 :=
  let r := f32_of_double (taylor_sin (double_of_f32 f)) in
  if is_zero32 r then f else r.

Definition x86_64_platform : Platform :=
  {| sinf := guarded_sinf;
     unrepresentable := fun w d => cvttsd2si (if w <? 32 then 32 else 64) d |}.

(** ** Sample units *)

(** A node in the [COMM] role that has produced the value [2.5]. *)
Definition sample_comm_node : DASE.UniversalNode :=
  {| DASE.current_type := DASE.COMM; DASE.value := 2.5; DASE.priority := DASE.NORMAL;
     DASE.data := DASE.comm {| DASE.message_count := 3;
                               DASE.routing_table := repeat 0 6 |};
     DASE.x := 4; DASE.y := 1; DASE.z := 0; DASE.node_id := 14;
     DASE.switch_count := 1; DASE.execution_count := 3 |}.

(** A unit in the [PROCESSOR] role whose register 0 holds [2^32 - 1]. *)
Definition sample_processor_node : DASE.UniversalNode :=
  {| DASE.current_type := DASE.PROCESSOR; DASE.value := 0.0;
     DASE.priority := DASE.NORMAL;
     DASE.data := DASE.processor
       {| DASE.registers0 := 4294967295; DASE.registers1 := 0;
          DASE.registers2 := 0; DASE.registers3 := 0; DASE.pc := 65535 |};
     DASE.x := 0; DASE.y := 0; DASE.z := 0; DASE.node_id := 0;
     DASE.switch_count := 1; DASE.execution_count := 65535 |}.

(** A unit in the [PROCESSOR] role with zero-initialized registers. *)
Definition zero_processor_node : DASE.UniversalNode :=
  {| DASE.current_type := DASE.PROCESSOR; DASE.value := 0.0;
     DASE.priority := DASE.NORMAL;
     DASE.data := DASE.processor DASE.ProcessorData_init;
     DASE.x := 0; DASE.y := 0; DASE.z := 0; DASE.node_id := 0;
     DASE.switch_count := 1; DASE.execution_count := 0 |}.

(** A unit in the [VECTOR] role whose embedding is 1, 2, ..., 8. *)
Definition sample_vector_node : DASE.UniversalNode :=
  {| DASE.current_type := DASE.VECTOR; DASE.value := 0.0;
     DASE.priority := DASE.NORMAL;
     DASE.data := DASE.vector
       {| DASE.vdata := map f32_of_Z [1; 2; 3; 4; 5; 6; 7; 8];
          DASE.threshold := f32_0_8 |};
     DASE.x := 0; DASE.y := 0; DASE.z := 0; DASE.node_id := 0;
     DASE.switch_count := 1; DASE.execution_count := 0 |}.

(** ** The scaled positions

    [n * 0.1f] is not zero for [n] and for [-n], checked from [n] up,
    [count] times. *)
Fixpoint scaled_nonzero_from (count : nat) (n : Z) : bool :=
  match count with
  | O => true
  | S k =>
      negb (is_zero32 (f32_mul (f32_of_Z n) f32_0_1))
      && negb (is_zero32 (f32_mul (f32_of_Z (- n)) f32_0_1))
      && scaled_nonzero_from k (n + 1)
  end.

(** ** Observations of a wave *)

(** What a wave returns, and the accumulators it leaves. *)
Definition wave_average (r : option (double * DASE.UniversalNodeEngine))
  : option double :=
  option_map fst r.

Definition wave_accumulators (r : option (double * DASE.UniversalNodeEngine))
  : option (list (option double)) :=
  option_map (fun p => map DASE.accumulator_of (DASE.nodes (snd p))) r.

Definition wave_values (r : option (double * DASE.UniversalNodeEngine))
  : option (list double) :=
  option_map (fun p => map DASE.value (DASE.nodes (snd p))) r.

(** ** The thresholds of the analog node, decoded *)

(** The binary64 decodings of the thresholds. *)
Definition sf_half : spec_float := S754_finite false 4503599627370496 (-53).
Definition sf_neg_half : spec_float := S754_finite true 4503599627370496 (-53).
Definition sf_zero : spec_float := S754_zero false.

(** The selection of [processSignal] over decoded values, with the
    thresholds [h] and [nh] left open. *)
Definition sf_mode (h nh s : spec_float) : Analog.Mode :=
  if SFltb h s then Analog.Integrator
  else if SFltb s nh then Analog.Differentiator
  else if SFltb sf_zero s then Analog.Amplifier
  else Analog.Inverter.

(** ** What [execute] leaves alone *)

(** The union with the fields [execute] writes blanked: what is left is the
    configuration of the role. *)
Definition role_parameters (d : DASE.FunctionData) : DASE.FunctionData :=
  match d with
  | DASE.worker w =>
      DASE.worker {| DASE.gain := DASE.gain w; DASE.accumulator := 0.0;
                     DASE.previous_value := DASE.previous_value w |}
  | DASE.comm c =>
      DASE.comm {| DASE.message_count := 0;
                   DASE.routing_table := DASE.routing_table c |}
  | DASE.vector v => DASE.vector v
  | DASE.processor p =>
      DASE.processor {| DASE.registers0 := DASE.registers0 p; DASE.registers1 := 0;
                        DASE.registers2 := DASE.registers2 p;
                        DASE.registers3 := DASE.registers3 p; DASE.pc := 0 |}
  | DASE.markov m =>
      DASE.markov {| DASE.state := 0; DASE.transitions := DASE.transitions m |}
  | DASE.kernel k =>
      DASE.kernel {| DASE.influence := 0.0; DASE.decay := DASE.decay k |}
  end.

(** The members of a node that no operation after construction writes, and
    those a wave does not write. *)
Definition placement (n : DASE.UniversalNode) : Z * Z * Z * Z :=
  (DASE.x n, DASE.y n, DASE.z n, DASE.node_id n).

(** A Markov state is one of 0, 1, 2, 3. *)
Definition markov_state_ok (n : DASE.UniversalNode) : Prop :=
  match DASE.data n with
  | DASE.markov m => 0 <= DASE.state m < 4
  | _ => True
  end.

(** A unit in the [MARKOV] role with its state at zero. *)
Definition sample_markov_node : DASE.UniversalNode :=
  {| DASE.current_type := DASE.MARKOV; DASE.value := 0.0;
     DASE.priority := DASE.NORMAL;
     DASE.data := DASE.markov DASE.MarkovData_init;
     DASE.x := 0; DASE.y := 0; DASE.z := 0; DASE.node_id := 0;
     DASE.switch_count := 1; DASE.execution_count := 0 |}.

(** ** The role pattern of a sweep *)

(** The role of each of [N] units after a sweep, and the number of switches
    a sweep costs a new unit: none at the indices the pattern leaves at
    [WORKER], one elsewhere. *)
Definition role_pattern (N : nat) : list DASE.NodeType :=
  map (fun i => nth (i mod 6) DASE.types DASE.WORKER) (seq 0 N).

Definition pattern_switches (N : nat) : list Z :=
  map (fun i => if (i mod 6 =? 0)%nat then 0 else 1) (seq 0 N).

(** ** The bounds of the feedback gain, decoded *)

Definition sf_tenth : spec_float := S754_finite false 7205759403792794 (-56).
Definition sf_ten : spec_float := S754_finite false 5629499534213120 (-49).

(** The members of an analog node that processing a signal never writes. *)
Definition cell_placement (n : Analog.AnalogUniversalNode) : Z * Z * Z * Z :=
  (Analog.x n, Analog.y n, Analog.z n, Analog.node_id n).

(** * Properties *)

(** ** Machine integers and conversions *)

Lemma wrap_range (w v : Z) : 0 <= w -> 0 <= wrap w v < 2 ^ w.
Proof.
  intros Hw. unfold wrap. apply Z.mod_pos_bound. apply Z.pow_pos_nonneg; lia.
Qed.

Lemma wrap_small (w v : Z) : 0 <= v < 2 ^ w -> wrap w v = v.
Proof. intros H. unfold wrap. apply Z.mod_small. exact H. Qed.

Lemma uint32_range (v : Z) : 0 <= uint32 v < 2 ^ 32.
Proof. apply wrap_range. lia. Qed.

Lemma uint16_range (v : Z) : 0 <= uint16 v < 2 ^ 16.
Proof. apply wrap_range. lia. Qed.

Section ConversionFacts.
Context {P : Platform}.

Lemma double_to_uint_range (w : Z) (d : double) :
  0 <= w -> 0 <= double_to_uint w d < 2 ^ w.
Proof.
  intros Hw. unfold double_to_uint.
  destruct (trunc_Z d) as [t|]; [|apply wrap_range; exact Hw].
  destruct ((0 <=? t) && (t <? 2 ^ w)) eqn:E; [|apply wrap_range; exact Hw].
  apply andb_true_iff in E. destruct E as [E1 E2].
  apply Z.leb_le in E1. apply Z.ltb_lt in E2. lia.
Qed.

Lemma double_to_uint_trunc (w : Z) (d : double) (t : Z) :
  trunc_Z d = Some t -> 0 <= t < 2 ^ w -> double_to_uint w d = t.
Proof.
  intros Ht Hr. unfold double_to_uint. rewrite Ht.
  destruct (Z.leb_spec 0 t); [|lia].
  destruct (Z.ltb_spec t (2 ^ w)); [reflexivity|lia].
Qed.

End ConversionFacts.

(** The conversions of [x86_64_platform] at inputs outside the destination
    type, as the compiled program yields them. *)
Lemma x86_64_conversions :
  map (double_to_uint (P := x86_64_platform) 32)
      [1e20; nan; infinity; -1.0; 4294967301.0; -3e9; 9.3e18; 3e9; -0.5]%float
    = [0; 0; 0; 4294967295; 5; 1294967296; 0; 3000000000; 0] /\
  map (double_to_uint (P := x86_64_platform) 8)
      [1e20; nan; -1.0; 300.0; 3e9; 4294967301.0]%float
    = [0; 0; 255; 44; 0; 0].
Proof. split; vm_compute; reflexivity. Qed.

(** ** The universal node *)

Section UniversalNodeFacts.
Import DASE.
Context {P : Platform}.

Lemma NodeType_eqb_spec (a b : NodeType) : reflect (a = b) (NodeType_eqb a b).
Proof. destruct a, b; constructor; congruence. Qed.

Lemma NodeType_eqb_refl (a : NodeType) : NodeType_eqb a a = true.
Proof. destruct a; reflexivity. Qed.

Lemma NodeType_eqb_neq (a b : NodeType) : a <> b -> NodeType_eqb a b = false.
Proof. intros H. destruct (NodeType_eqb_spec a b); congruence. Qed.

(** The construction followed by the seeding stores is what the switch
    writes into the union. *)
Lemma switchToType_changed (n : UniversalNode) (t : NodeType) :
  current_type n <> t ->
  switchToType n t =
    (true,
     {| current_type := t; value := value n; priority := priority n;
        data := seed (value n) (x n) (y n) (z n) (init_block t);
        x := x n; y := y n; z := z n; node_id := node_id n;
        switch_count := uint64 (switch_count n + 1);
        execution_count := execution_count n |}).
Proof.
  intros H. unfold switchToType. rewrite (NodeType_eqb_neq _ _ H).
  destruct t; reflexivity.
Qed.

(** The guard at the head of [switchToType]. *)
Lemma switchToType_guard (n : UniversalNode) (t : NodeType) :
  current_type n = t -> switchToType n t = (false, n).
Proof.
  intros E. unfold switchToType. rewrite E, NodeType_eqb_refl. reflexivity.
Qed.

Lemma switchToType_type (n : UniversalNode) (t : NodeType) :
  current_type (snd (switchToType n t)) = t.
Proof.
  unfold switchToType.
  destruct (NodeType_eqb_spec (current_type n) t) as [E|E]; [exact E|reflexivity].
Qed.

Lemma seed_active_member (v : double) (px py pz : Z) (d : FunctionData) :
  active_member (seed v px py pz d) = active_member d.
Proof. destruct d; reflexivity. Qed.

Lemma init_block_active_member (t : NodeType) : active_member (init_block t) = t.
Proof. destruct t; reflexivity. Qed.

(** The constructor and both operations keep the tag on the active member. *)
Lemma new_UniversalNode_tag (id px py pz : Z) :
  tag_matches (new_UniversalNode id px py pz).
Proof. reflexivity. Qed.

Lemma switchToType_tag (n : UniversalNode) (t : NodeType) :
  tag_matches n -> tag_matches (snd (switchToType n t)).
Proof.
  intros H. destruct (NodeType_eqb_spec (current_type n) t) as [E|E].
  - rewrite (switchToType_guard _ _ E). exact H.
  - rewrite (switchToType_changed _ _ E). unfold tag_matches. simpl.
    rewrite seed_active_member. apply init_block_active_member.
Qed.

Lemma execute_role_defined (t : NodeType) (d : FunctionData) (input : double) :
  active_member d = t ->
  exists d' r, execute_role t d input = Some (d', r) /\ active_member d' = t.
Proof.
  intros H. subst t. destruct d; simpl; eauto.
Qed.

Lemma execute_defined (n : UniversalNode) (input : double) :
  tag_matches n ->
  exists r n', execute n input = Some (r, n') /\ tag_matches n'.
Proof.
  intros H. unfold execute.
  destruct (execute_role_defined _ _ input H) as (d' & r & E & A).
  rewrite E. exists r. eexists. split; [reflexivity|exact A].
Qed.

End UniversalNodeFacts.

(** ** Role switching *)

Section RoleSwitching.
Import DASE.
Context {P : Platform}.

(** C1, as amended. For every unit and every role [t] other than its current
    one, [switchToType t] returns [true]; the union then holds the
    default-constructed member of [t] (gain 1.0, threshold 0.8, transitions
    0.25, decay 0.9, every other field zero) with the seeded fields stored
    over it, so it is a function of [t], the captured value and the position
    alone and nothing of the previous member survives; the value becomes the
    accumulator of a new worker and the influence of a new kernel; the switch
    count goes up by one (as a 64-bit counter) and no other field changes. *)
Theorem switchToType_replaces_state (n : UniversalNode) (t : NodeType) :
  current_type n <> t ->
  fst (switchToType n t) = true /\
  current_type (snd (switchToType n t)) = t /\
  data (snd (switchToType n t)) = seed (value n) (x n) (y n) (z n) (init_block t) /\
  (forall m : UniversalNode,
      current_type m <> t -> value m = value n ->
      x m = x n -> y m = y n -> z m = z n ->
      data (snd (switchToType m t)) = data (snd (switchToType n t))) /\
  (t = WORKER ->
   data (snd (switchToType n t)) =
     worker {| gain := 1.0; accumulator := value n; previous_value := 0.0 |}) /\
  (t = KERNEL ->
   data (snd (switchToType n t)) =
     kernel {| influence := value n; decay := 0.9 |}) /\
  switch_count (snd (switchToType n t)) = uint64 (switch_count n + 1) /\
  (0 <= switch_count n < 2 ^ 64 - 1 ->
   switch_count (snd (switchToType n t)) = switch_count n + 1) /\
  value (snd (switchToType n t)) = value n /\
  priority (snd (switchToType n t)) = priority n /\
  (x (snd (switchToType n t)), y (snd (switchToType n t)),
   z (snd (switchToType n t)), node_id (snd (switchToType n t)))
    = (x n, y n, z n, node_id n) /\
  execution_count (snd (switchToType n t)) = execution_count n.
Proof.
  intros H. rewrite (switchToType_changed n t H). cbn [fst snd].
  repeat split; try reflexivity.
  - intros m Hm Hv Hx Hy Hz. rewrite (switchToType_changed m t Hm). cbn [snd data].
    rewrite Hv, Hx, Hy, Hz. reflexivity.
  - intros ->. reflexivity.
  - intros ->. reflexivity.
  - intros Hr. cbn [switch_count]. apply wrap_small. lia.
Qed.

(** C2. After a switch into the [WORKER] role from another role, the
    accumulator is the unit's last value itself. *)
Theorem switchToType_worker_accumulator (n : UniversalNode) :
  current_type n <> WORKER ->
  exists w : WorkerData,
    data (snd (switchToType n WORKER)) = worker w /\ accumulator w = value n.
Proof.
  intros H. rewrite (switchToType_changed n WORKER H). cbn.
  eexists. split; reflexivity.
Qed.

(** C3. Switching a unit to the role it already has returns [false] and
    leaves the whole unit as it was. *)
Theorem switchToType_same_type (n : UniversalNode) :
  switchToType n (current_type n) = (false, n).
Proof. apply switchToType_guard. reflexivity. Qed.

Lemma switchToType_again (n : UniversalNode) (t : NodeType) :
  switchToType (snd (switchToType n t)) t = (false, snd (switchToType n t)).
Proof. apply switchToType_guard, switchToType_type. Qed.

Lemma role_loop_again (ns : list UniversalNode) :
  forall i : nat, role_loop i (role_loop i ns) = role_loop i ns.
Proof.
  induction ns as [|n rest IH]; intros i; cbn [role_loop].
  - reflexivity.
  - rewrite switchToType_again. cbn [snd]. rewrite IH. reflexivity.
Qed.

Lemma role_loop_types (ns : list UniversalNode) :
  forall i : nat,
    map current_type (role_loop i ns)
    = map (fun k => nth (k mod 6) types WORKER) (seq i (length ns)).
Proof.
  induction ns as [|n rest IH]; intros i; cbn [role_loop map length seq].
  - reflexivity.
  - rewrite switchToType_type, IH. reflexivity.
Qed.

Lemma role_loop_length (ns : list UniversalNode) :
  forall i : nat, length (role_loop i ns) = length ns.
Proof.
  induction ns as [|n rest IH]; intros i; cbn [role_loop length].
  - reflexivity.
  - rewrite IH. reflexivity.
Qed.

(** C8. A second [performRoleSwitching] right after a first changes nothing:
    after one sweep unit [i] has the role [types[i % 6]], and the second sweep
    leaves the engine, hence every unit's role, as the first left it. *)
Theorem performRoleSwitching_idempotent (e : UniversalNodeEngine) :
  performRoleSwitching (performRoleSwitching e) = performRoleSwitching e /\
  map current_type (nodes (performRoleSwitching (performRoleSwitching e)))
    = map current_type (nodes (performRoleSwitching e)) /\
  map current_type (nodes (performRoleSwitching e))
    = map (fun i => nth (i mod 6) types WORKER) (seq 0 (length (nodes e))).
Proof.
  assert (E : performRoleSwitching (performRoleSwitching e) = performRoleSwitching e).
  { unfold performRoleSwitching. destruct (nodes e) as [|n rest] eqn:Hn.
    - rewrite Hn. reflexivity.
    - cbn [nodes active_nodes].
      change (role_loop 0 (n :: rest))
        with (snd (switchToType n (nth (0 mod 6) types WORKER)) :: role_loop 1 rest).
      change (snd (switchToType n (nth (0 mod 6) types WORKER)) :: role_loop 1 rest)
        with (role_loop 0 (n :: rest)) at 2 3.
      rewrite role_loop_again. reflexivity. }
  split; [exact E|]. split; [rewrite E; reflexivity|].
  unfold performRoleSwitching.
  destruct (nodes e) as [|n rest] eqn:Hn; [rewrite Hn; reflexivity|].
  cbn [nodes]. apply role_loop_types.
Qed.

End RoleSwitching.

(** C1, as stated, fails: the block a switch leaves is not zero-initialized.
    A fresh unit switched to [KERNEL] holds decay 0.9, where a zeroed block
    with the value stored as influence would hold decay 0. *)
Lemma switchToType_kernel_block_not_zero :
  DASE.data (snd (DASE.switchToType (P := sample_platform)
                    (DASE.new_UniversalNode 0 0 0 0) DASE.KERNEL))
    = DASE.kernel {| DASE.influence := 0.0; DASE.decay := 0.9 |} /\
  DASE.data (snd (DASE.switchToType (P := sample_platform)
                    (DASE.new_UniversalNode 0 0 0 0) DASE.KERNEL))
    <> DASE.seed (P := sample_platform) 0.0 0 0 0 (DASE.zero_block DASE.KERNEL).
Proof.
  split; [reflexivity|].
  intros H.
  apply (f_equal (fun d => match d with
                           | DASE.kernel k => Prim2SF (DASE.decay k)
                           | _ => S754_nan
                           end)) in H.
  vm_compute in H. discriminate H.
Qed.

(** The switch of [sample_comm_node] to [KERNEL]: the value 2.5 becomes the
    influence, over the default decay. *)
Lemma switchToType_replaces_state_witness :
  DASE.current_type sample_comm_node <> DASE.KERNEL /\
  DASE.data (snd (DASE.switchToType (P := sample_platform) sample_comm_node DASE.KERNEL))
    = DASE.kernel {| DASE.influence := 2.5; DASE.decay := 0.9 |}.
Proof.
  assert (H : DASE.current_type sample_comm_node <> DASE.KERNEL) by discriminate.
  split; [exact H|].
  exact (proj1 (proj2 (proj2 (proj2 (proj2 (proj2
    (switchToType_replaces_state (P := sample_platform)
       sample_comm_node DASE.KERNEL H)))))) eq_refl).
Defined.

(** The switch of [sample_comm_node] to [WORKER]: the accumulator is 2.5. *)
Lemma switchToType_worker_accumulator_witness :
  DASE.current_type sample_comm_node <> DASE.WORKER /\
  exists w : DASE.WorkerData,
    DASE.data (snd (DASE.switchToType (P := sample_platform) sample_comm_node DASE.WORKER))
      = DASE.worker w /\
    DASE.accumulator w = 2.5%float.
Proof.
  assert (H : DASE.current_type sample_comm_node <> DASE.WORKER) by discriminate.
  split; [exact H|].
  exact (switchToType_worker_accumulator (P := sample_platform) sample_comm_node H).
Defined.

(** ** Execution *)

Section Execution.
Import DASE.
Context {P : Platform}.

(** The [WORKER] case of [execute]. *)
Lemma execute_worker (n : UniversalNode) (w : WorkerData) (input : double) :
  current_type n = WORKER -> data n = worker w ->
  exists n' : UniversalNode,
    execute n input
      = Some ((input * gain w + (accumulator w + input * gain w * 0.01))%float, n') /\
    accumulator_of n' = Some (accumulator w + input * gain w * 0.01)%float.
Proof.
  intros Ht Hd. unfold execute. rewrite Ht, Hd. cbn.
  eexists. split; reflexivity.
Qed.

(** C9. In the [PROCESSOR] role, on an input whose truncation toward zero is
    a 32-bit unsigned value [t], [execute] returns: register 1 becomes
    register 0 plus [t] reduced modulo [2^32], the program counter goes up by
    one as a 16-bit counter, the other registers stay, and the result is
    register 1 as a double. With the registers and the counter at zero,
    input [5.0] gives register 1 = 5, pc = 1 and result [5.0]. *)
Theorem execute_processor_in_range
    (n : UniversalNode) (p : ProcessorData) (input : double) (t : Z) :
  current_type n = PROCESSOR -> data n = processor p ->
  trunc_Z input = Some t -> 0 <= t < 2 ^ 32 ->
  exists n' : UniversalNode,
    execute n input = Some (double_of_Z ((registers0 p + t) mod 2 ^ 32), n') /\
    data n' =
      processor {| registers0 := registers0 p;
                   registers1 := (registers0 p + t) mod 2 ^ 32;
                   registers2 := registers2 p; registers3 := registers3 p;
                   pc := (pc p + 1) mod 2 ^ 16 |} /\
    current_type n' = PROCESSOR /\
    value n' = double_of_Z ((registers0 p + t) mod 2 ^ 32) /\
    execution_count n' = (execution_count n + 1) mod 2 ^ 64 /\
    (p = ProcessorData_init -> input = 5.0%float ->
     execute n input = Some (5.0%float, n') /\
     data n' = processor {| registers0 := 0; registers1 := 5; registers2 := 0;
                            registers3 := 0; pc := 1 |}).
Proof.
  intros Ht Hd Htr Hr. unfold execute. rewrite Ht, Hd. cbn [execute_role].
  rewrite (double_to_uint_trunc 32 input t Htr Hr).
  eexists. split; [reflexivity|]. cbn [data current_type value execution_count].
  split; [reflexivity|].
  split; [reflexivity|]. split; [reflexivity|]. split; [reflexivity|].
  intros -> ->. cbn [ProcessorData_init registers0 registers2 registers3 pc].
  assert (E5 : trunc_Z 5.0%float = Some 5) by (vm_compute; reflexivity).
  assert (T : t = 5) by congruence. subst t.
  assert (R1 : uint32 (0 + 5) = 5) by (vm_compute; reflexivity).
  assert (D5 : double_of_Z 5 = 5.0%float) by (vm_compute; reflexivity).
  assert (PC : uint16 (0 + 1) = 1) by (vm_compute; reflexivity).
  rewrite R1, D5, PC. split; reflexivity.
Qed.

Lemma similarity_loop_from (dat : list float32) (input_f : float32) :
  forall acc : float32,
    fold_left (fun similarity d => f32_add similarity (f32_mul d input_f)) dat acc
    = fold_left (fun s pq => f32_add s (f32_mul (fst pq) (snd pq)))
                (combine dat (repeat input_f (length dat))) acc.
Proof.
  induction dat as [|d rest IH]; intros acc; cbn.
  - reflexivity.
  - apply IH.
Qed.

(** The loop of the [VECTOR] case is a dot product with the broadcast input. *)
Lemma similarity_loop_dot (dat : list float32) (input_f : float32) :
  similarity_loop dat input_f = dot_f32 dat (broadcast (length dat) input_f).
Proof. apply similarity_loop_from. Qed.

Lemma scaled_nonzero_from_sound (count : nat) :
  forall n : Z,
    scaled_nonzero_from count n = true ->
    forall k : Z, n <= k < n + Z.of_nat count ->
      is_zero32 (f32_mul (f32_of_Z k) f32_0_1) = false /\
      is_zero32 (f32_mul (f32_of_Z (- k)) f32_0_1) = false.
Proof.
  induction count as [|c IH]; intros n H k Hk.
  - cbn in Hk. lia.
  - cbn [scaled_nonzero_from] in H.
    apply andb_prop in H. destruct H as [H H3].
    apply andb_prop in H. destruct H as [H1 H2].
    destruct (Z.eq_dec k n) as [->|Hne].
    + split; apply negb_true_iff; assumption.
    + apply (IH (n + 1) H3). lia.
Qed.

Lemma scaled_nonzero_checked : scaled_nonzero_from (Z.to_nat 98308) 1 = true.
Proof. vm_compute. reflexivity. Qed.

(** The sum of three [int16_t] coordinates and an index below 8, scaled by
    [0.1f], is zero only if the sum is. *)
Lemma scaled_nonzero (s : Z) :
  s <> 0 -> -98308 <= s <= 98308 ->
  is_zero32 (SFmul 24 128 (binary_normalize 24 128 s 0 false)
                   (S754_finite false 13421773 (-27))) = false.
Proof.
  intros Hs Hr.
  change (is_zero32 (f32_mul (f32_of_Z s) f32_0_1) = false).
  assert (B : forall k : Z, 1 <= k < 1 + Z.of_nat (Z.to_nat 98308) ->
            is_zero32 (f32_mul (f32_of_Z k) f32_0_1) = false /\
            is_zero32 (f32_mul (f32_of_Z (- k)) f32_0_1) = false)
    by (apply scaled_nonzero_from_sound, scaled_nonzero_checked).
  rewrite Z2Nat.id in B by lia.
  destruct (Z_lt_le_dec 0 s) as [Hp|Hn].
  - apply (B s). lia.
  - replace s with (- (- s)) by lia. apply (B (- s)). lia.
Qed.

(** C10. After a switch into the [VECTOR] role from another role the
    embedding has 8 components, component [i] being
    [sinf((x + y + z + i) * 0.1f)] in binary32. With [int16_t] coordinates and
    a [sinf] that vanishes at zero only, component [i] is not zero unless
    [x + y + z + i = 0], so at most one component vanishes and the embedding
    is not the zero vector of the default construction. The embedding is the
    same for every unit at that position, whatever its value and previous
    state; and [execute] then returns, as a double, the binary32 dot product
    of the embedding with the input broadcast into 8 components, added from
    the left, leaving the embedding as it is. On the embedding 1, 2, ..., 8
    the input [0.3] gives [10.80000114440918], the sum of the eight products
    with [0.3f] as accumulated in binary32. *)
Theorem switchToType_vector_embedding (n : UniversalNode) :
  current_type n <> VECTOR ->
  exists v : VectorData,
    data (snd (switchToType n VECTOR)) = vector v /\
    length (vdata v) = 8%nat /\
    (forall i : nat, (i < 8)%nat ->
       nth i (vdata v) (S754_zero false)
       = sinf (SFmul 24 128
                 (binary_normalize 24 128 (x n + y n + z n + Z.of_nat i) 0 false)
                 (S754_finite false 13421773 (-27)))) /\
    (-32768 <= x n <= 32767 -> -32768 <= y n <= 32767 -> -32768 <= z n <= 32767 ->
     (forall a : float32, is_zero32 (sinf a) = true -> is_zero32 a = true) ->
     (forall i : nat, (i < 8)%nat -> x n + y n + z n + Z.of_nat i <> 0 ->
        is_zero32 (nth i (vdata v) (S754_zero false)) = false) /\
     (exists i : nat,
        (i < 8)%nat /\ is_zero32 (nth i (vdata v) (S754_zero false)) = false) /\
     vdata v <> vdata VectorData_init) /\
    (forall m : UniversalNode,
       current_type m <> VECTOR -> x m = x n -> y m = y n -> z m = z n ->
       data (snd (switchToType m VECTOR)) = vector v) /\
    (forall input : double,
       exists n' : UniversalNode,
         execute (snd (switchToType n VECTOR)) input
           = Some (SF2Prim
                     (fold_left
                        (fun s pq => SFadd 24 128 s (SFmul 24 128 (fst pq) (snd pq)))
                        (combine (vdata v) (repeat (f32_of_double input) 8))
                        (S754_zero false)), n') /\
         data n' = vector v) /\
    (exists u' : UniversalNode,
       execute sample_vector_node 0.3
         = Some (10.80000114440918%float, u') /\
       data u' = data sample_vector_node).
Proof.
  intros H. rewrite (switchToType_changed n VECTOR H). cbn [snd data init_block seed].
  eexists. split; [reflexivity|]. cbn [vdata].
  assert (Hnth : forall i : nat, (i < 8)%nat ->
            nth i (position_vector (x n) (y n) (z n)) (S754_zero false)
            = sinf (SFmul 24 128
                      (binary_normalize 24 128 (x n + y n + z n + Z.of_nat i) 0 false)
                      (S754_finite false 13421773 (-27)))).
  { intros i Hi.
    do 8 (destruct i as [|i]; [reflexivity|]). lia. }
  split; [reflexivity|].
  split; [exact Hnth|].
  split.
  { intros Hx Hy Hz Hsin.
    assert (Hcomp : forall i : nat, (i < 8)%nat -> x n + y n + z n + Z.of_nat i <> 0 ->
              is_zero32 (nth i (position_vector (x n) (y n) (z n)) (S754_zero false))
              = false).
    { intros i Hi Hs. rewrite (Hnth i Hi).
      match goal with
      | |- is_zero32 (sinf ?a) = false =>
          destruct (is_zero32 (sinf a)) eqn:E; [|reflexivity];
          apply Hsin in E; rewrite scaled_nonzero in E; [discriminate E|exact Hs|lia]
      end. }
    assert (Hex : exists i : nat, (i < 8)%nat /\
              is_zero32 (nth i (position_vector (x n) (y n) (z n)) (S754_zero false))
              = false).
    { destruct (Z.eq_dec (x n + y n + z n) 0) as [E0|E0].
      - exists 1%nat. split; [lia|]. apply Hcomp; lia.
      - exists 0%nat. split; [lia|]. apply Hcomp; lia. }
    split; [exact Hcomp|]. split; [exact Hex|].
    intros E. destruct Hex as (i & Hi & Hz0). rewrite E in Hz0.
    cbn [VectorData_init vdata] in Hz0.
    do 8 (destruct i as [|i]; [discriminate Hz0|]). lia. }
  split.
  { intros m Hm Hx Hy Hz. rewrite (switchToType_changed m VECTOR Hm).
    cbn [snd data init_block seed]. rewrite Hx, Hy, Hz. reflexivity. }
  split.
  { intros input. unfold execute. cbn [current_type data execute_role vdata].
    rewrite similarity_loop_dot.
    eexists. split; reflexivity. }
  unfold execute. cbn [sample_vector_node current_type data execute_role vdata].
  assert (V : double_of_f32
                (similarity_loop (map f32_of_Z [1; 2; 3; 4; 5; 6; 7; 8])
                                 (f32_of_double 0.3))
              = 10.80000114440918%float) by (vm_compute; reflexivity).
  rewrite V. eexists. split; reflexivity.
Qed.

End Execution.

(** Register 0 at [2^32 - 1] and input 2.0: register 1 wraps to 1, the
    program counter wraps from 65535 to 0, and the result is 1.0. *)
Lemma execute_processor_in_range_witness :
  trunc_Z 2.0 = Some 2 /\ 0 <= 2 < 2 ^ 32 /\
  exists n' : DASE.UniversalNode,
    DASE.execute (P := x86_64_platform) sample_processor_node 2.0%float
      = Some (1.0%float, n') /\
    DASE.data n' =
      DASE.processor {| DASE.registers0 := 4294967295; DASE.registers1 := 1;
                        DASE.registers2 := 0; DASE.registers3 := 0; DASE.pc := 0 |}.
Proof.
  assert (T : trunc_Z 2.0 = Some 2) by (vm_compute; reflexivity).
  assert (R : 0 <= 2 < 2 ^ 32) by lia.
  split; [exact T|]. split; [exact R|].
  destruct (execute_processor_in_range (P := x86_64_platform) sample_processor_node
              _ 2.0%float 2 eq_refl eq_refl T R) as (n' & He & Hd & _).
  exists n'. split; [exact He | exact Hd].
Defined.

(** C9, as stated for every input, fails. As g++ compiles the conversion for
    x86-64, a unit with zero-initialized registers run on the input [1e20]
    leaves register 1 at 0 and returns [0.0], although the input truncates to
    [10^20], which is 1661992960 modulo [2^32]; and a NaN input, which has no
    truncation at all, is converted to 0 as well. *)
Lemma execute_processor_not_wrapping :
  trunc_Z 1e20 = Some (10 ^ 20) /\
  (0 + 10 ^ 20) mod 2 ^ 32 = 1661992960 /\
  trunc_Z nan = None /\
  (exists n' : DASE.UniversalNode,
     DASE.execute (P := x86_64_platform) zero_processor_node 1e20
       = Some (0.0%float, n') /\
     DASE.data n' =
       DASE.processor {| DASE.registers0 := 0; DASE.registers1 := 0;
                         DASE.registers2 := 0; DASE.registers3 := 0;
                         DASE.pc := 1 |}) /\
  (exists n' : DASE.UniversalNode,
     DASE.execute (P := x86_64_platform) zero_processor_node nan
       = Some (0.0%float, n')) /\
  ~ (forall (input : double) (t : Z),
       trunc_Z input = Some t ->
       exists (r : double) (n' : DASE.UniversalNode) (p' : DASE.ProcessorData),
         DASE.execute (P := x86_64_platform) zero_processor_node input = Some (r, n') /\
         DASE.data n' = DASE.processor p' /\
         DASE.registers1 p' = (0 + t) mod 2 ^ 32).
Proof.
  assert (T : trunc_Z 1e20 = Some (10 ^ 20)) by (vm_compute; reflexivity).
  assert (E : DASE.execute (P := x86_64_platform) zero_processor_node 1e20
              = Some (0.0%float,
                      {| DASE.current_type := DASE.PROCESSOR; DASE.value := 0.0;
                         DASE.priority := DASE.NORMAL;
                         DASE.data := DASE.processor
                           {| DASE.registers0 := 0; DASE.registers1 := 0;
                              DASE.registers2 := 0; DASE.registers3 := 0;
                              DASE.pc := 1 |};
                         DASE.x := 0; DASE.y := 0; DASE.z := 0; DASE.node_id := 0;
                         DASE.switch_count := 1; DASE.execution_count := 1 |}))
    by (vm_compute; reflexivity).
  split; [exact T|].
  split; [vm_compute; reflexivity|].
  split; [vm_compute; reflexivity|].
  split; [eexists; split; [exact E|reflexivity]|].
  split; [eexists; vm_compute; reflexivity|].
  intros A. destruct (A 1e20%float (10 ^ 20) T) as (r & n' & p' & He & Hd & Hr).
  rewrite E in He.
  assert (Hn : DASE.data n' = DASE.processor
                 {| DASE.registers0 := 0; DASE.registers1 := 0;
                    DASE.registers2 := 0; DASE.registers3 := 0; DASE.pc := 1 |}).
  { apply (f_equal (fun o => match o with
                             | Some (_, u) => DASE.data u
                             | None => DASE.data n'
                             end)) in He.
    cbn in He. symmetry. exact He. }
  rewrite Hn in Hd.
  assert (Hp : DASE.registers1 p' = 0).
  { apply (f_equal (fun d => match d with
                             | DASE.processor q => DASE.registers1 q
                             | _ => 0
                             end)) in Hd.
    cbn in Hd. symmetry. exact Hd. }
  rewrite Hp in Hr. vm_compute in Hr. discriminate Hr.
Qed.

Lemma guarded_sinf_zero (a : float32) :
  is_zero32 (guarded_sinf a) = true -> is_zero32 a = true.
Proof.
  unfold guarded_sinf.
  destruct (is_zero32 (f32_of_double (taylor_sin (double_of_f32 a)))) eqn:E.
  - intros H; exact H.
  - intros H. rewrite E in H. discriminate H.
Qed.

(** The switch of [sample_comm_node], at position (4, 1, 0), to [VECTOR],
    with a [sinf] that vanishes at zero only: no component is zero, and the
    embedding is not the zero vector. *)
Lemma switchToType_vector_embedding_witness :
  DASE.current_type sample_comm_node <> DASE.VECTOR /\
  exists v : DASE.VectorData,
    DASE.data (snd (DASE.switchToType (P := x86_64_platform) sample_comm_node DASE.VECTOR))
      = DASE.vector v /\
    (forall i : nat, (i < 8)%nat ->
       is_zero32 (nth i (DASE.vdata v) (S754_zero false)) = false) /\
    DASE.vdata v <> repeat (S754_zero false) 8.
Proof.
  assert (H : DASE.current_type sample_comm_node <> DASE.VECTOR) by discriminate.
  split; [exact H|].
  destruct (switchToType_vector_embedding (P := x86_64_platform) sample_comm_node H)
    as (v & Hd & _ & _ & Hz & _).
  assert (B : -32768 <= 4 <= 32767 /\ -32768 <= 1 <= 32767 /\ -32768 <= 0 <= 32767)
    by lia.
  destruct B as (Bx & By & Bz).
  destruct (Hz Bx By Bz guarded_sinf_zero) as (Hc & _ & Hne).
  exists v. split; [exact Hd|]. split; [|exact Hne].
  intros i Hi. apply (Hc i Hi). cbn [sample_comm_node DASE.x DASE.y DASE.z]. lia.
Defined.

(** ** The engine *)

Section Engine.
Import DASE.
Context {P : Platform}.

Lemma initialize_length (node_count : nat) :
  length (nodes (initialize node_count)) = node_count.
Proof. unfold initialize. cbn [nodes]. rewrite length_map. apply length_seq. Qed.

Lemma executeWave_no_nodes (e : UniversalNodeEngine) (base_input : double) :
  nodes e = [] -> executeWave e base_input = Some (0.0%float, e).
Proof. intros H. unfold executeWave. rewrite H. reflexivity. Qed.

Lemma initialize_tags (node_count : nat) :
  Forall tag_matches (nodes (initialize node_count)).
Proof.
  unfold initialize. cbn [nodes]. apply Forall_map, Forall_forall.
  intros i _. apply new_UniversalNode_tag.
Qed.

Lemma role_loop_tags (ns : list UniversalNode) :
  forall i : nat, Forall tag_matches ns -> Forall tag_matches (role_loop i ns).
Proof.
  induction ns as [|n rest IH]; intros i H; cbn [role_loop].
  - constructor.
  - inversion H as [|? ? Hn Hrest]; subst. constructor.
    + apply switchToType_tag. exact Hn.
    + apply IH. exact Hrest.
Qed.

(** On units whose tag names the active member the loop of a wave runs to
    its end, and keeps the number of units and the tags. *)
Lemma wave_loop_defined (ns : list UniversalNode) (base_input : double) :
  forall (i : nat) (total_output : double),
    Forall tag_matches ns ->
    exists (total : double) (ns' : list UniversalNode),
      wave_loop i ns base_input total_output = Some (total, ns') /\
      length ns' = length ns /\ Forall tag_matches ns'.
Proof.
  induction ns as [|n rest IH]; intros i total_output H; cbn [wave_loop].
  - exists total_output, []. repeat split. constructor.
  - inversion H as [|? ? Hn Hrest]; subst.
    destruct (execute_defined n (base_input + double_of_Z (Z.of_nat i) * 0.1)%float Hn)
      as (output & n' & He & Hn').
    rewrite He.
    destruct (IH (S i) (total_output + output)%float Hrest)
      as (total & rest' & Hl & Hlen & Htags).
    rewrite Hl. exists total, (n' :: rest'). split; [reflexivity|].
    split; [cbn [length]; rewrite Hlen; reflexivity|].
    constructor; assumption.
Qed.

Lemma executeWave_defined (e : UniversalNodeEngine) (base_input : double) :
  Forall tag_matches (nodes e) ->
  exists (average : double) (e' : UniversalNodeEngine),
    executeWave e base_input = Some (average, e') /\
    length (nodes e') = length (nodes e) /\ Forall tag_matches (nodes e').
Proof.
  intros H. unfold executeWave. destruct (nodes e) as [|n rest] eqn:Hn.
  - exists 0.0%float, e. rewrite Hn. repeat split. constructor.
  - destruct (wave_loop_defined (n :: rest) base_input 0%nat 0.0%float H)
      as (total & ns' & Hl & Hlen & Htags).
    rewrite Hl. eexists. eexists. split; [reflexivity|].
    cbn [nodes]. split; assumption.
Qed.

(** C4, as amended. On an engine initialized with 4 units (all [WORKER], gain
    1.0, accumulator 0), [executeWave(1.0)] gives unit [i] the input
    [1.0 + i * 0.1]; each unit computes [result = input * gain],
    [accumulator += result * 0.01], [result += accumulator]; the accumulators
    end at 0.01, 0.011, 0.012 and 0.013 (as binary64 values) and the wave
    returns the mean of the four results, 1.1615. *)
Theorem executeWave_four_workers :
  wave_average (executeWave (initialize 4) 1.0) = Some 1.1615%float /\
  wave_accumulators (executeWave (initialize 4) 1.0)
    = Some [Some 0.01; Some 0.011000000000000001;
            Some 0.012; Some 0.013000000000000001]%float /\
  wave_accumulators (executeWave (initialize 4) 1.0)
    = Some (map (fun i => Some (0.0 + (1.0 + double_of_Z i * 0.1) * 1.0 * 0.01)%float)
                [0; 1; 2; 3]) /\
  wave_values (executeWave (initialize 4) 1.0)
    = Some (map (fun i =>
                   let input := (1.0 + double_of_Z i * 0.1)%float in
                   (input * 1.0 + (0.0 + input * 1.0 * 0.01))%float)
                [0; 1; 2; 3]) /\
  wave_values (executeWave (initialize 4) 1.0)
    = Some [1.01; 1.111; 1.212; 1.3129999999999999]%float /\
  ((0.0 + 1.01 + 1.111 + 1.212 + 1.3129999999999999) / 4 = 1.1615)%float.
Proof.
  repeat split; vm_compute; reflexivity.
Qed.

(** C6. On an engine initialized with zero units [executeWave] returns 0.0
    for every input and leaves the engine as it is. *)
Theorem executeWave_empty (base_input : double) :
  executeWave (initialize 0) base_input = Some (0.0%float, initialize 0).
Proof. apply executeWave_no_nodes. reflexivity. Qed.

(** C7. [getNode] returns the unit at [index] when [index] is below the number
    of units, and null otherwise. *)
Theorem getNode_bounds (e : UniversalNodeEngine) (index : nat) :
  ((index < getNodeCount e)%nat ->
   exists u : UniversalNode,
     getNode e index = Some u /\ nth_error (nodes e) index = Some u) /\
  ((getNodeCount e <= index)%nat -> getNode e index = None).
Proof.
  unfold getNode, getNodeCount. split; intros H.
  - destruct (Nat.ltb_spec index (length (nodes e))) as [_|Hge]; [|lia].
    destruct (nth_error (nodes e) index) as [u|] eqn:E.
    + exists u. split; reflexivity.
    + apply nth_error_None in E. lia.
  - destruct (Nat.ltb_spec index (length (nodes e))) as [Hlt|_]; [lia|reflexivity].
Qed.

End Engine.

(** C4, as stated, fails: on 4 fresh units one wave with base input 1.0
    returns 1.1615 and leaves the accumulators near 0.01 to 0.013; neither the
    mean nor any accumulator is 0.1. *)
Lemma executeWave_four_workers_not_tenth :
  ~ (exists e' : DASE.UniversalNodeEngine,
       DASE.executeWave (P := sample_platform) (DASE.initialize 4) 1.0
         = Some (0.1%float, e')) /\
  ~ (exists (avg : double) (e' : DASE.UniversalNodeEngine),
       DASE.executeWave (P := sample_platform) (DASE.initialize 4) 1.0
         = Some (avg, e') /\
       exists n : DASE.UniversalNode,
         In n (DASE.nodes e') /\ DASE.accumulator_of n = Some 0.1%float).
Proof.
  split.
  - intros (e' & H).
    apply (f_equal (fun r => match wave_average r with
                             | Some a => Prim2SF a
                             | None => S754_nan
                             end)) in H.
    vm_compute in H. discriminate H.
  - intros (avg & e' & H & n & Hin & Hacc).
    apply (f_equal wave_accumulators) in H.
    cbn [wave_accumulators option_map snd] in H.
    apply (in_map DASE.accumulator_of) in Hin. rewrite Hacc in Hin.
    revert Hin. generalize (map DASE.accumulator_of (DASE.nodes e')) H.
    clear. intros l H Hin. vm_compute in H.
    assert (E : l = [Some 0.01; Some 0.011000000000000001;
                     Some 0.012; Some 0.013000000000000001]%float) by congruence.
    subst l. clear H. cbn [In] in Hin.
    assert (D : forall a b : double, Prim2SF a <> Prim2SF b -> Some a = Some b -> False).
    { intros a b Hab E. apply Hab. congruence. }
    destruct Hin as [E|[E|[E|[E|[]]]]]; revert E; apply D; vm_compute; discriminate.
Qed.

(** ** The analog node: which mode a control signal selects *)

Lemma Prim2SF_half : Prim2SF 0.5 = sf_half.
Proof. vm_compute. reflexivity. Qed.

Lemma Prim2SF_neg_half : Prim2SF (-0.5) = sf_neg_half.
Proof. vm_compute. reflexivity. Qed.

Lemma Prim2SF_zero : Prim2SF 0.0 = sf_zero.
Proof. vm_compute. reflexivity. Qed.

Lemma SFcompare_antisym (a b : spec_float) :
  SFcompare a b = option_map CompOpp (SFcompare b a).
Proof.
  destruct a as [sa|sa| |sa ma ea], b as [sb|sb| |sb mb eb];
    try destruct sa; try destruct sb; cbn; try reflexivity;
    f_equal;
    rewrite (Z.compare_antisym eb ea);
    change (Pos.compare_cont Eq ma mb) with (Pos.compare ma mb);
    change (Pos.compare_cont Eq mb ma) with (Pos.compare mb ma);
    rewrite (Pos.compare_antisym mb ma);
    destruct (eb ?= ea); destruct (mb ?= ma)%positive; reflexivity.
Qed.

Lemma SFeqb_self (s : spec_float) :
  SFeqb s s = match s with S754_nan => false | _ => true end.
Proof.
  destruct s as [sg|sg| |sg m e]; try destruct sg; try reflexivity;
    unfold SFeqb; cbn; rewrite Z.compare_refl;
    change (Pos.compare_cont Eq m m) with (Pos.compare m m);
    rewrite Pos.compare_refl; reflexivity.
Qed.

Lemma is_nan_Prim2SF (c : double) : is_nan c = true <-> Prim2SF c = S754_nan.
Proof.
  unfold is_nan. rewrite eqb_spec, SFeqb_self.
  destruct (Prim2SF c); cbn; split; intros H; try reflexivity; discriminate H.
Qed.

(** A positive threshold [h], its opposite and zero cut the decoded values
    into the four regions, NaN falling in the last. *)
Lemma sf_mode_partition (K : positive) (E : Z) (s : spec_float) :
  let h := S754_finite false K E in
  let nh := S754_finite true K E in
  (sf_mode h nh s = Analog.Integrator <-> SFltb h s = true) /\
  (sf_mode h nh s = Analog.Differentiator <-> SFltb s nh = true) /\
  (sf_mode h nh s = Analog.Amplifier <->
     SFltb sf_zero s = true /\ SFleb s h = true) /\
  (sf_mode h nh s = Analog.Inverter <->
     (SFleb s sf_zero = true /\ SFleb nh s = true) \/ s = S754_nan).
Proof.
  intros h nh. unfold sf_mode, SFltb, SFleb.
  rewrite (SFcompare_antisym s h), (SFcompare_antisym nh s).
  subst h nh.
  destruct s as [sg|sg| |sg m e]; try destruct sg; cbn.
  all: try match goal with
           | |- context [Z.compare ?a ?b] => destruct (Z.compare a b)
           end; cbn.
  all: try match goal with
           | |- context [Pos.compare_cont Eq ?a ?b] =>
               destruct (Pos.compare_cont Eq a b)
           end; cbn.
  all: repeat split; intros; try discriminate; try tauto; try (intuition discriminate).
Qed.

Section SignalControl.
Import Analog.

Lemma mode_of_control_decoded (control : double) :
  mode_of_control control = sf_mode sf_half sf_neg_half (Prim2SF control).
Proof.
  unfold mode_of_control, sf_mode.
  rewrite !ltb_spec, Prim2SF_half, Prim2SF_neg_half, Prim2SF_zero. reflexivity.
Qed.

Lemma processSignal_run_mode (n : AnalogUniversalNode) (input control aux : double) :
  processSignal n input control aux = run_mode (mode_of_control control) n input control.
Proof.
  unfold processSignal, run_mode, mode_of_control, mode_step.
  destruct (0.5 <? control)%float; [reflexivity|].
  destruct (control <? -0.5)%float; [reflexivity|].
  destruct (0.0 <? control)%float; reflexivity.
Qed.

(** One call on a fresh analog node with input 1.0 and control 1.0 integrates
    with step 0.1: state and output are both 0.1. *)
Lemma processSignal_fresh_integrator (aux : double) :
  processSignal new_AnalogUniversalNode 1.0 1.0 aux
  = (0.1%float,
     {| current_output := 0.1; integrator_state := 0.1; previous_input := 0.0;
        feedback_gain := 1.0; x := 0; y := 0; z := 0; node_id := 0;
        operation_count := 1 |}).
Proof.
  rewrite processSignal_run_mode.
  replace (mode_of_control 1.0) with Integrator by (vm_compute; reflexivity).
  vm_compute. reflexivity.
Qed.

(** C5. [processSignal] runs the mode its control signal selects, and the
    selection is: Integrator exactly when control > 0.5; Differentiator
    exactly when control < -0.5; Amplifier exactly when 0 < control <= 0.5;
    Inverter exactly for the rest, that is -0.5 <= control <= 0 (and a control
    that is not a number). Control 0.5 selects Amplifier. *)
Theorem processSignal_mode_partition
    (n : AnalogUniversalNode) (input control aux : double) :
  processSignal n input control aux
    = run_mode (mode_of_control control) n input control /\
  (mode_of_control control = Integrator <-> (0.5 <? control)%float = true) /\
  (mode_of_control control = Differentiator <-> (control <? -0.5)%float = true) /\
  (mode_of_control control = Amplifier <->
     (0.0 <? control)%float = true /\ (control <=? 0.5)%float = true) /\
  (mode_of_control control = Inverter <->
     ((control <=? 0.0)%float = true /\ (-0.5 <=? control)%float = true)
     \/ is_nan control = true) /\
  mode_of_control 0.5 = Amplifier /\
  processSignal n input 0.5 aux = run_mode Amplifier n input 0.5.
Proof.
  split; [apply processSignal_run_mode|].
  assert (Hm := sf_mode_partition 4503599627370496 (-53) (Prim2SF control)).
  cbv zeta in Hm. fold sf_half sf_neg_half in Hm.
  rewrite <- mode_of_control_decoded in Hm.
  rewrite is_nan_Prim2SF, !ltb_spec, !leb_spec,
    Prim2SF_half, Prim2SF_neg_half, Prim2SF_zero.
  destruct Hm as (H1 & H2 & H3 & H4).
  split; [exact H1|]. split; [exact H2|]. split; [exact H3|]. split; [exact H4|].
  split; [vm_compute; reflexivity|].
  rewrite processSignal_run_mode.
  replace (mode_of_control 0.5) with Amplifier by (vm_compute; reflexivity).
  reflexivity.
Qed.

End SignalControl.

(** * Further properties of the universal node *)

Section NodeRuns.
Import DASE.
Context {P : Platform}.

Lemma uint64_succ_idem (a b : Z) : uint64 (uint64 a + b) = uint64 (a + b).
Proof. unfold uint64, wrap. apply Z.add_mod_idemp_l. lia. Qed.

Lemma uint32_add_idem (a b : Z) : uint32 (uint32 a + b) = uint32 (a + b).
Proof. unfold uint32, wrap. apply Z.add_mod_idemp_l. lia. Qed.

Lemma uint16_add_idem (a b : Z) : uint16 (uint16 a + b) = uint16 (a + b).
Proof. unfold uint16, wrap. apply Z.add_mod_idemp_l. lia. Qed.

Lemma last_nonempty_default (A : Type) (a : A) (l : list A) (d1 d2 : A) :
  last (a :: l) d1 = last (a :: l) d2.
Proof.
  revert a. induction l as [|b l IH]; intros a; [reflexivity|].
  change (last (b :: l) d1 = last (b :: l) d2). apply IH.
Qed.

(** One call of [execute]: what it writes and what it keeps. *)
Lemma execute_frame (n n' : UniversalNode) (input r : double) :
  execute n input = Some (r, n') ->
  value n' = r /\
  execution_count n' = uint64 (execution_count n + 1) /\
  current_type n' = current_type n /\
  switch_count n' = switch_count n /\
  priority n' = priority n /\
  placement n' = placement n /\
  role_parameters (data n') = role_parameters (data n) /\
  tag_matches n /\ tag_matches n'.
Proof.
  unfold execute, tag_matches, placement. intros H.
  destruct (execute_role (current_type n) (data n) input) as [[d res]|] eqn:E;
    [|discriminate H].
  assert (Hn : n' = {| current_type := current_type n; value := res;
                       priority := priority n; data := d;
                       x := x n; y := y n; z := z n; node_id := node_id n;
                       switch_count := switch_count n;
                       execution_count := uint64 (execution_count n + 1) |})
    by congruence.
  assert (Hr : r = res) by congruence.
  subst n' r. cbn [value execution_count current_type switch_count priority
                   x y z node_id data].
  assert (Hd : role_parameters d = role_parameters (data n) /\
               active_member (data n) = current_type n /\
               active_member d = current_type n).
  { apply (f_equal (option_map fst)) in E. cbn [option_map fst] in E.
    destruct (current_type n), (data n); cbn in E; try discriminate E;
      injection E as <-; repeat split. }
  destruct Hd as (H1 & H2 & H3). repeat split; assumption.
Qed.

(** X1. Over any run of [execute] calls that returns, the node keeps its
    role, position, id, priority, switch count and the configuration of its
    role; there is one result per input, the execution count has gone up by
    the number of calls (as a 64-bit counter), and after at least one call
    the stored value is the last result. *)
Theorem execute_all_frame (inputs : list double) :
  forall (n n' : UniversalNode) (rs : list double),
    execute_all n inputs = Some (rs, n') ->
    length rs = length inputs /\
    uint64 (execution_count n')
      = uint64 (execution_count n + Z.of_nat (length inputs)) /\
    value n' = last rs (value n) /\
    current_type n' = current_type n /\
    switch_count n' = switch_count n /\
    priority n' = priority n /\
    placement n' = placement n /\
    role_parameters (data n') = role_parameters (data n).
Proof.
  induction inputs as [|input rest IH]; intros n n' rs H; cbn [execute_all] in H.
  - assert (rs = [] /\ n' = n) as [-> ->] by (split; congruence).
    cbn [length last Z.of_nat]. rewrite Z.add_0_r. repeat split.
  - destruct (execute n input) as [[r n1]|] eqn:E; [|discriminate H].
    destruct (execute_all n1 rest) as [[rs1 n2]|] eqn:E2; [|discriminate H].
    assert (rs = r :: rs1 /\ n' = n2) as [-> ->] by (split; congruence).
    destruct (execute_frame _ _ _ _ E) as (V & C & T & S & Pr & Pl & R & Tg & Tg').
    destruct (IH _ _ _ E2) as (L2 & C2 & V2 & T2 & S2 & Pr2 & Pl2 & R2).
    cbn [length]. rewrite Nat2Z.inj_succ.
    split; [rewrite L2; reflexivity|].
    split.
    { rewrite C2, C, uint64_succ_idem. f_equal. lia. }
    split.
    { rewrite V2, V. destruct rs1 as [|d rs1]; [reflexivity|].
      change (last (d :: rs1) r = last (d :: rs1) (value n)).
      apply last_nonempty_default. }
    repeat split; congruence.
Qed.

Lemma execute_all_defined (inputs : list double) :
  forall n : UniversalNode,
    tag_matches n ->
    exists (rs : list double) (n' : UniversalNode),
      execute_all n inputs = Some (rs, n').
Proof.
  induction inputs as [|input rest IH]; intros n H; cbn [execute_all].
  - eauto.
  - destruct (execute_defined n input H) as (r & n1 & E & H1). rewrite E.
    destruct (IH n1 H1) as (rs & n2 & E2). rewrite E2. eauto.
Qed.

Lemma execute_all_comm_from (inputs : list double) :
  forall (n : UniversalNode) (c : CommData) (b : Z) (s : nat),
    current_type n = COMM -> data n = comm c ->
    uint32 (message_count c) = uint32 (b + Z.of_nat s) ->
    exists (n' : UniversalNode) (c' : CommData),
      execute_all n inputs
        = Some (map (fun p => (fst p + double_of_Z (uint32 (b + Z.of_nat (snd p)))
                                       * 0.01)%float)
                    (combine inputs (seq (S s) (length inputs))), n') /\
      data n' = comm c' /\
      routing_table c' = routing_table c /\
      uint32 (message_count c') = uint32 (b + Z.of_nat (s + length inputs)).
Proof.
  induction inputs as [|input rest IH]; intros n c b s Ht Hd Hc.
  - exists n, c. cbn [execute_all length seq combine map].
    rewrite Nat.add_0_r. repeat split; assumption.
  - cbn [execute_all]. unfold execute at 1. rewrite Ht, Hd. cbn [execute_role].
    assert (Hc1 : uint32 (message_count c + 1) = uint32 (b + Z.of_nat (S s))).
    { rewrite <- uint32_add_idem, Hc, uint32_add_idem. f_equal. lia. }
    match goal with
    | |- context [execute_all ?n1 rest] =>
        destruct (IH n1 {| message_count := uint32 (message_count c + 1);
                           routing_table := routing_table c |} b (S s)
                    eq_refl eq_refl) as (n' & c' & E & D & R & M)
    end.
    { cbn [message_count]. rewrite <- Hc1. unfold uint32, wrap. apply Zmod_mod. }
    rewrite E. exists n', c'. cbn [length seq combine map fst snd].
    rewrite Hc1. split; [reflexivity|]. split; [exact D|]. split; [exact R|].
    rewrite M. f_equal. lia.
Qed.

(** X2. A unit in the [COMM] role counts its calls: over a run the [k]-th
    result is the [k]-th input plus 0.01 times the message count after [k]
    more messages, the count has gone up by the number of calls (as a 32-bit
    counter), and the routing table is as before. *)
Theorem execute_all_comm (inputs : list double) (n : UniversalNode) (c : CommData) :
  current_type n = COMM -> data n = comm c ->
  exists (n' : UniversalNode) (c' : CommData),
    execute_all n inputs
      = Some (map (fun p => (fst p + double_of_Z
                                       (uint32 (message_count c + Z.of_nat (snd p)))
                                     * 0.01)%float)
                  (combine inputs (seq 1 (length inputs))), n') /\
    data n' = comm c' /\
    routing_table c' = routing_table c /\
    uint32 (message_count c')
      = uint32 (message_count c + Z.of_nat (length inputs)).
Proof.
  intros Ht Hd.
  apply (execute_all_comm_from inputs n c (message_count c) 0 Ht Hd).
  rewrite Z.add_0_r. reflexivity.
Qed.

(** X3. A unit in the [PROCESSOR] role has no memory from call to call: over
    a run each result is register 0 plus its own input, modulo [2^32], as a
    double; registers 0, 2 and 3 never change, register 1 holds the last sum,
    and the program counter has gone up by the number of calls (as a 16-bit
    counter). *)
Theorem execute_all_processor (inputs : list double) :
  forall (n : UniversalNode) (p : ProcessorData),
    current_type n = PROCESSOR -> data n = processor p ->
    exists (n' : UniversalNode) (p' : ProcessorData),
      execute_all n inputs
        = Some (map (fun v => double_of_Z
                                (uint32 (registers0 p + double_to_uint 32 v)))
                    inputs, n') /\
      data n' = processor p' /\
      registers0 p' = registers0 p /\
      registers1 p'
        = last (map (fun v => uint32 (registers0 p + double_to_uint 32 v)) inputs)
               (registers1 p) /\
      registers2 p' = registers2 p /\
      registers3 p' = registers3 p /\
      uint16 (pc p') = uint16 (pc p + Z.of_nat (length inputs)).
Proof.
  induction inputs as [|input rest IH]; intros n p Ht Hd.
  - exists n, p. cbn [execute_all map length last Z.of_nat].
    rewrite Z.add_0_r. repeat split; assumption.
  - cbn [execute_all]. unfold execute at 1. rewrite Ht, Hd. cbn [execute_role].
    match goal with
    | |- context [execute_all ?n1 rest] =>
        destruct (IH n1 {| registers0 := registers0 p;
                           registers1 := uint32 (registers0 p + double_to_uint 32 input);
                           registers2 := registers2 p; registers3 := registers3 p;
                           pc := uint16 (pc p + 1) |} eq_refl eq_refl)
          as (n' & p' & E & D & R0 & R1 & R2 & R3 & PC)
    end.
    cbn [registers0 registers1 registers2 registers3 pc] in E, R0, R1, R2, R3, PC.
    rewrite E. exists n', p'. cbn [map length].
    split; [reflexivity|]. split; [exact D|]. split; [exact R0|].
    split.
    { rewrite R1. destruct rest as [|v rest]; [reflexivity|].
      cbn [map].
      change (last (uint32 (registers0 p + double_to_uint 32 v)
                      :: map (fun v0 => uint32 (registers0 p + double_to_uint 32 v0)) rest)
                   (uint32 (registers0 p + double_to_uint 32 input))
              = last (uint32 (registers0 p + double_to_uint 32 v)
                        :: map (fun v0 => uint32 (registers0 p + double_to_uint 32 v0)) rest)
                     (registers1 p)).
      apply last_nonempty_default. }
    split; [exact R2|]. split; [exact R3|].
    rewrite PC, uint16_add_idem, Nat2Z.inj_succ. f_equal. lia.
Qed.

(** X4. The Markov state is always one of 0, 1, 2, 3: a new node satisfies
    this, a role switch keeps it and establishes it when it enters [MARKOV],
    and [execute] establishes it whatever the state was before. On a unit
    in state 0 the input 0.5 gives state 2 and the result 2.5. *)
Theorem markov_state_invariant :
  (forall id px py pz : Z, markov_state_ok (new_UniversalNode id px py pz)) /\
  (forall (n : UniversalNode) (t : NodeType),
     markov_state_ok n -> markov_state_ok (snd (switchToType n t))) /\
  (forall (n n' : UniversalNode) (input r : double),
     execute n input = Some (r, n') -> markov_state_ok n') /\
  (exists n' : UniversalNode,
     execute sample_markov_node 0.5 = Some (2.5%float, n') /\
     data n' = markov {| state := 2; transitions := repeat f32_0_25 4 |}).
Proof.
  assert (R : forall v : Z, 0 <= uint8 (v mod 4) < 4).
  { intros v. assert (0 <= v mod 4 < 4) by (apply Z.mod_pos_bound; lia).
    unfold uint8. rewrite wrap_small; lia. }
  split; [intros; exact I|].
  split.
  { intros n t H. destruct (NodeType_eqb_spec (current_type n) t) as [E|E].
    - rewrite (switchToType_guard _ _ E). exact H.
    - rewrite (switchToType_changed _ _ E). unfold markov_state_ok.
      destruct t; cbn; try exact I. apply R. }
  split.
  { intros n n' input r H. unfold execute in H.
    destruct (execute_role (current_type n) (data n) input) as [[d res]|] eqn:E;
      [|discriminate H].
    assert (Hd : data n' = d).
    { apply (f_equal (option_map (fun q => data (snd q)))) in H.
      cbn in H. congruence. }
    unfold markov_state_ok. rewrite Hd.
    apply (f_equal (option_map fst)) in E. cbn [option_map fst] in E.
    destruct (current_type n), (data n); cbn in E; try discriminate E;
      injection E as <-; try exact I.
    cbn. apply R. }
  unfold execute. cbn [sample_markov_node current_type data execute_role
                       MarkovData_init state transitions].
  assert (C : double_to_uint 8 (0.5 * 4)%float = 2) by (vm_compute; reflexivity).
  assert (S2 : uint8 ((2 + 0) mod 4) = 2) by (vm_compute; reflexivity).
  assert (D : (double_of_Z 2 + 0.5)%float = 2.5%float) by (vm_compute; reflexivity).
  rewrite C, S2, D. eexists. split; reflexivity.
Qed.

End NodeRuns.

(** Witnesses of the runs above. *)
Lemma execute_all_frame_witness :
  exists (rs : list double) (n' : DASE.UniversalNode),
    DASE.execute_all (P := sample_platform) sample_processor_node [2.0; 3.0]%float
      = Some (rs, n') /\
    length rs = 2%nat /\
    uint64 (DASE.execution_count n') = uint64 (65535 + 2).
Proof.
  destruct (execute_all_defined (P := sample_platform) [2.0; 3.0]%float
              sample_processor_node eq_refl) as (rs & n' & H).
  exists rs, n'. split; [exact H|].
  destruct (execute_all_frame (P := sample_platform) _ _ _ _ H) as (L & C & _).
  split; [exact L | exact C].
Defined.

Lemma execute_all_comm_witness :
  exists (n' : DASE.UniversalNode) (c' : DASE.CommData),
    DASE.data n' = DASE.comm c' /\
    uint32 (DASE.message_count c') = uint32 (3 + 2).
Proof.
  destruct (execute_all_comm (P := sample_platform) [1.0; 2.0]%float
              sample_comm_node _ eq_refl eq_refl) as (n' & c' & _ & D & _ & M).
  exists n', c'. split; [exact D | exact M].
Defined.

Lemma execute_all_processor_witness :
  exists (n' : DASE.UniversalNode) (p' : DASE.ProcessorData),
    DASE.data n' = DASE.processor p' /\
    DASE.registers0 p' = 4294967295 /\
    uint16 (DASE.pc p') = uint16 (65535 + 2).
Proof.
  destruct (execute_all_processor (P := sample_platform) [2.0; 3.0]%float
              sample_processor_node _ eq_refl eq_refl)
    as (n' & p' & _ & D & R0 & _ & _ & _ & PC).
  exists n', p'. split; [exact D|]. split; [exact R0 | exact PC].
Defined.

(** * Further properties of the engine *)

Section EngineRuns.
Import DASE.
Context {P : Platform}.

(** One role switch: what it keeps, and what it costs. *)
Lemma switchToType_frame (n : UniversalNode) (t : NodeType) :
  value (snd (switchToType n t)) = value n /\
  execution_count (snd (switchToType n t)) = execution_count n /\
  priority (snd (switchToType n t)) = priority n /\
  placement (snd (switchToType n t)) = placement n /\
  switch_count (snd (switchToType n t))
    = (if NodeType_eqb (current_type n) t then switch_count n
       else uint64 (switch_count n + 1)).
Proof.
  unfold switchToType, placement.
  destruct (NodeType_eqb (current_type n) t); repeat split.
Qed.

Lemma wave_loop_frame (ns : list UniversalNode) (base_input : double) :
  forall (i : nat) (total_output total : double) (ns' : list UniversalNode),
    wave_loop i ns base_input total_output = Some (total, ns') ->
    length ns' = length ns /\
    map current_type ns' = map current_type ns /\
    map switch_count ns' = map switch_count ns /\
    map placement ns' = map placement ns /\
    map (fun n => role_parameters (data n)) ns'
      = map (fun n => role_parameters (data n)) ns /\
    map execution_count ns' = map (fun n => uint64 (execution_count n + 1)) ns /\
    total = fold_left PrimFloat.add (map value ns') total_output /\
    Forall tag_matches ns'.
Proof.
  induction ns as [|n rest IH]; intros i total_output total ns' H;
    cbn [wave_loop] in H.
  - assert (total = total_output /\ ns' = []) as [-> ->] by (split; congruence).
    repeat split. constructor.
  - destruct (execute n _) as [[output n1]|] eqn:E; [|discriminate H].
    destruct (wave_loop (S i) rest base_input _) as [[t rest']|] eqn:E2;
      [|discriminate H].
    assert (total = t /\ ns' = n1 :: rest') as [-> ->] by (split; congruence).
    destruct (execute_frame _ _ _ _ E) as (V & C & T & S & _ & Pl & R & _ & Tg).
    destruct (IH _ _ _ _ E2) as (L & T2 & S2 & Pl2 & R2 & C2 & Sum & Tg2).
    cbn [length map fold_left].
    rewrite L, T, T2, S, S2, Pl, Pl2, R, R2, C, C2, V.
    repeat split; try reflexivity; [exact Sum|]. constructor; assumption.
Qed.

(** X6. A wave that returns keeps the number of units and, unit by unit,
    the role, the switch count, the position and id and the configuration of
    the role; it adds one to every execution count; and what it returns is
    0.0 on an engine without nodes and otherwise the sum of the values the
    units now store, added in index order from 0.0, divided by their
    number. *)
Theorem executeWave_frame
    (e e' : UniversalNodeEngine) (base_input average : double) :
  executeWave e base_input = Some (average, e') ->
  length (nodes e') = length (nodes e) /\
  active_nodes e' = active_nodes e /\
  map current_type (nodes e') = map current_type (nodes e) /\
  map switch_count (nodes e') = map switch_count (nodes e) /\
  map placement (nodes e') = map placement (nodes e) /\
  map (fun n => role_parameters (data n)) (nodes e')
    = map (fun n => role_parameters (data n)) (nodes e) /\
  map execution_count (nodes e')
    = map (fun n => uint64 (execution_count n + 1)) (nodes e) /\
  average
    = match nodes e with
      | [] => 0.0%float
      | _ :: _ =>
          (fold_left PrimFloat.add (map value (nodes e')) 0.0
           / double_of_Z (Z.of_nat (length (nodes e))))%float
      end.
Proof.
  unfold executeWave. intros H. destruct (nodes e) as [|n rest] eqn:Hn.
  - assert (average = 0.0%float /\ e' = e) as [-> ->] by (split; congruence).
    rewrite Hn. repeat split.
  - destruct (wave_loop 0 (n :: rest) base_input 0.0) as [[t ns]|] eqn:E;
      [|discriminate H].
    assert (He : e' = {| nodes := ns; active_nodes := active_nodes e |})
      by congruence.
    assert (Ha : average = (t / double_of_Z (Z.of_nat (length (n :: rest))))%float)
      by congruence.
    subst e' average. cbn [nodes active_nodes].
    destruct (wave_loop_frame _ _ _ _ _ _ E) as (L & T & S & Pl & R & C & Sum & _).
    rewrite Sum. repeat split; assumption.
Qed.

Lemma role_loop_frame (ns : list UniversalNode) :
  forall i : nat,
    map value (role_loop i ns) = map value ns /\
    map execution_count (role_loop i ns) = map execution_count ns /\
    map priority (role_loop i ns) = map priority ns /\
    map placement (role_loop i ns) = map placement ns /\
    map switch_count (role_loop i ns)
      = map (fun q => if NodeType_eqb (current_type (snd q))
                                      (nth (fst q mod 6) types WORKER)
                      then switch_count (snd q)
                      else uint64 (switch_count (snd q) + 1))
            (combine (seq i (length ns)) ns).
Proof.
  induction ns as [|n rest IH]; intros i; cbn [role_loop map length seq combine].
  - repeat split.
  - destruct (switchToType_frame n (nth (i mod 6) types WORKER))
      as (V & C & Pr & Pl & Sw).
    destruct (IH (S i)) as (V2 & C2 & Pr2 & Pl2 & Sw2).
    cbn [fst snd]. rewrite V, V2, C, C2, Pr, Pr2, Pl, Pl2, Sw, Sw2.
    repeat split.
Qed.

(** X7. A role sweep keeps the number of units and every unit's value,
    execution count, priority, position and id; unit [i] ends in role
    [types[i % 6]], and its switch count goes up by one (as a 64-bit counter)
    exactly when it was not in that role already. *)
Theorem performRoleSwitching_frame (e : UniversalNodeEngine) :
  length (nodes (performRoleSwitching e)) = length (nodes e) /\
  active_nodes (performRoleSwitching e) = active_nodes e /\
  map value (nodes (performRoleSwitching e)) = map value (nodes e) /\
  map execution_count (nodes (performRoleSwitching e))
    = map execution_count (nodes e) /\
  map priority (nodes (performRoleSwitching e)) = map priority (nodes e) /\
  map placement (nodes (performRoleSwitching e)) = map placement (nodes e) /\
  map current_type (nodes (performRoleSwitching e))
    = role_pattern (length (nodes e)) /\
  map switch_count (nodes (performRoleSwitching e))
    = map (fun q => if NodeType_eqb (current_type (snd q))
                                    (nth (fst q mod 6) types WORKER)
                    then switch_count (snd q)
                    else uint64 (switch_count (snd q) + 1))
          (combine (seq 0 (length (nodes e))) (nodes e)).
Proof.
  unfold performRoleSwitching, role_pattern.
  destruct (nodes e) as [|n rest] eqn:Hn.
  - rewrite Hn. repeat split.
  - cbn [nodes active_nodes].
    destruct (role_loop_frame (n :: rest) 0) as (V & C & Pr & Pl & Sw).
    rewrite role_loop_length, role_loop_types.
    repeat split; assumption.
Qed.

(** What the rounds below need of a wave. *)
Lemma wave_frame_of (e e' : UniversalNodeEngine) (base_input average : double) :
  executeWave e base_input = Some (average, e') ->
  map current_type (nodes e') = map current_type (nodes e) /\
  map switch_count (nodes e') = map switch_count (nodes e) /\
  map execution_count (nodes e')
    = map (fun n => uint64 (execution_count n + 1)) (nodes e).
Proof.
  unfold executeWave. intros H. destruct (nodes e) as [|n rest] eqn:Hn.
  - assert (e' = e) as -> by congruence. rewrite Hn. repeat split.
  - destruct (wave_loop 0 (n :: rest) base_input 0.0) as [[t ns]|] eqn:E;
      [|discriminate H].
    assert (He : e' = {| nodes := ns; active_nodes := active_nodes e |})
      by congruence.
    subst e'. cbn [nodes].
    destruct (wave_loop_frame _ _ _ _ _ _ E) as (_ & T & Sw & _ & _ & C & _).
    repeat split; assumption.
Qed.

(** What the rounds below need of a sweep. *)
Lemma sweep_frame_of (e : UniversalNodeEngine) :
  length (nodes (performRoleSwitching e)) = length (nodes e) /\
  map execution_count (nodes (performRoleSwitching e))
    = map execution_count (nodes e) /\
  map current_type (nodes (performRoleSwitching e))
    = role_pattern (length (nodes e)).
Proof.
  unfold performRoleSwitching, role_pattern.
  destruct (nodes e) as [|n rest] eqn:Hn.
  - rewrite Hn. repeat split.
  - cbn [nodes].
    destruct (role_loop_frame (n :: rest) 0) as (_ & C & _).
    rewrite role_loop_length, role_loop_types. repeat split. exact C.
Qed.

(** A sweep over units that already follow the pattern changes nothing. *)
Lemma role_loop_fixed (ns : list UniversalNode) :
  forall i : nat,
    map current_type ns
      = map (fun k => nth (k mod 6) types WORKER) (seq i (length ns)) ->
    role_loop i ns = ns.
Proof.
  induction ns as [|n rest IH]; intros i H; cbn [role_loop]; [reflexivity|].
  cbn [map length seq] in H. injection H as Hn Hrest.
  rewrite (switchToType_guard _ _ Hn), (IH _ Hrest). reflexivity.
Qed.

Lemma performRoleSwitching_fixed (e : UniversalNodeEngine) :
  map current_type (nodes e) = role_pattern (length (nodes e)) ->
  performRoleSwitching e = e.
Proof.
  unfold performRoleSwitching, role_pattern. intros H.
  destruct (nodes e) as [|n rest] eqn:Hn; [reflexivity|].
  rewrite (role_loop_fixed _ _ H), <- Hn. destruct e; reflexivity.
Qed.

Lemma pattern_role_worker (k : nat) :
  NodeType_eqb WORKER (nth (k mod 6) types WORKER) = (k mod 6 =? 0)%nat.
Proof.
  assert (H : (k mod 6 < 6)%nat) by (apply Nat.mod_upper_bound; discriminate).
  destruct (k mod 6)%nat as [|[|[|[|[|[|m]]]]]]; try reflexivity. lia.
Qed.

(** The first sweep over new units. *)
Lemma role_loop_fresh_switches (N : nat) :
  forall i : nat,
    map switch_count (role_loop i (map (fun k => node_at (Z.of_nat k)) (seq i N)))
    = map (fun k => if (k mod 6 =? 0)%nat then 0 else 1) (seq i N).
Proof.
  induction N as [|N IH]; intros i; cbn [seq map role_loop]; [reflexivity|].
  rewrite IH. f_equal.
  destruct (switchToType_frame (node_at (Z.of_nat i)) (nth (i mod 6) types WORKER))
    as (_ & _ & _ & _ & Sw).
  rewrite Sw. change (current_type (node_at (Z.of_nat i))) with WORKER.
  rewrite pattern_role_worker. destruct (i mod 6 =? 0)%nat; reflexivity.
Qed.

Lemma map_repeat_const (A B : Type) (f : A -> B) (l : list A) (b : B) :
  (forall a, In a l -> f a = b) -> map f l = repeat b (length l).
Proof.
  induction l as [|a l IH]; intros H; cbn [map length repeat]; [reflexivity|].
  rewrite (H a (or_introl eq_refl)), IH; [reflexivity|].
  intros a' Ha. apply H. right. exact Ha.
Qed.

Lemma map_uint64_succ_repeat (j : Z) (N : nat) :
  map (fun c => uint64 (c + 1)) (repeat (uint64 j) N) = repeat (uint64 (j + 1)) N.
Proof.
  induction N as [|N IH]; cbn [repeat map]; [reflexivity|].
  rewrite IH, uint64_succ_idem. reflexivity.
Qed.

(** Rounds of a sweep followed by a wave, from an engine whose next sweep
    leaves the switch counts [sw]. *)
Lemma role_wave_rounds_from (N : nat) (sw : list Z) (inputs : list double) :
  forall (e : UniversalNodeEngine) (results : list double) (j : Z),
    length (nodes e) = N ->
    Forall tag_matches (nodes e) ->
    map switch_count (nodes (performRoleSwitching e)) = sw ->
    map execution_count (nodes e) = repeat (uint64 j) N ->
    exists (rs : list double) (e' : UniversalNodeEngine),
      role_wave_rounds inputs e results = Some (results ++ rs, e') /\
      length rs = length inputs /\
      length (nodes e') = N /\
      Forall tag_matches (nodes e') /\
      map execution_count (nodes e')
        = repeat (uint64 (j + Z.of_nat (length inputs))) N /\
      (inputs <> [] ->
       map current_type (nodes e') = role_pattern N /\
       map switch_count (nodes e') = sw).
Proof.
  induction inputs as [|input rest IH]; intros e results j HN Htag Hsw Hex.
  - exists [], e. cbn [role_wave_rounds length Z.of_nat].
    rewrite app_nil_r, Z.add_0_r.
    repeat split; try assumption; congruence.
  - cbn [role_wave_rounds].
    destruct (sweep_frame_of e) as (L1 & C1 & T1).
    assert (Htag1 : Forall tag_matches (nodes (performRoleSwitching e))).
    { unfold performRoleSwitching. destruct (nodes e) as [|n ns] eqn:Hn.
      - rewrite Hn. constructor.
      - cbn [nodes]. apply role_loop_tags. exact Htag. }
    destruct (executeWave_defined (performRoleSwitching e) input Htag1)
      as (output & e2 & E & L2 & Htag2).
    rewrite E.
    destruct (wave_frame_of _ _ _ _ E) as (T2 & S2 & C2).
    assert (HN2 : length (nodes e2) = N) by congruence.
    assert (HT2 : map current_type (nodes e2) = role_pattern N).
    { rewrite T2, T1, HN. reflexivity. }
    assert (Hfix : performRoleSwitching e2 = e2).
    { apply performRoleSwitching_fixed. rewrite HN2. exact HT2. }
    assert (Hsw2 : map switch_count (nodes e2) = sw) by congruence.
    destruct (IH e2 (results ++ [output]) (j + 1) HN2 Htag2)
      as (rs & e' & R & Lr & Ln & Tg & Cn & Hne).
    { rewrite Hfix. exact Hsw2. }
    { rewrite C2, <- (map_map execution_count (fun c => uint64 (c + 1))), C1, Hex.
      apply map_uint64_succ_repeat. }
    exists (output :: rs), e'. rewrite R, <- app_assoc. cbn [app length].
    split; [reflexivity|]. split; [rewrite Lr; reflexivity|].
    split; [exact Ln|]. split; [exact Tg|].
    split; [rewrite Cn; do 2 f_equal; lia|].
    intros _. destruct rest as [|input2 rest2].
    + cbn [role_wave_rounds] in R.
      assert (e' = e2) by congruence. subst e'. split; assumption.
    + apply Hne. discriminate.
Qed.
Lemma initialize_execution_counts (N : nat) :
  map execution_count (nodes (initialize N)) = repeat (uint64 0) N.
Proof.
  rewrite <- (initialize_length N) at 2. apply map_repeat_const.
  intros n Hn. unfold initialize in Hn. cbn [nodes] in Hn.
  apply in_map_iff in Hn. destruct Hn as (i & <- & _). reflexivity.
Qed.

Lemma initialize_first_sweep (N : nat) :
  map switch_count (nodes (performRoleSwitching (initialize N)))
  = pattern_switches N.
Proof.
  unfold performRoleSwitching, pattern_switches.
  destruct (nodes (initialize N)) as [|n rest] eqn:Hn.
  - rewrite Hn. apply (f_equal (@length _)) in Hn.
    rewrite initialize_length in Hn. subst N. reflexivity.
  - cbn [nodes]. rewrite <- Hn. apply role_loop_fresh_switches.
Qed.

Lemma role_wave_rounds_initialize (N : nat) (inputs : list double) :
  exists (rs : list double) (e' : UniversalNodeEngine),
    role_wave_rounds inputs (initialize N) [] = Some (rs, e') /\
    length rs = length inputs /\
    length (nodes e') = N /\
    map execution_count (nodes e')
      = repeat (uint64 (Z.of_nat (length inputs))) N /\
    (inputs <> [] ->
     map current_type (nodes e') = role_pattern N /\
     map switch_count (nodes e') = pattern_switches N).
Proof.
  destruct (role_wave_rounds_from N (pattern_switches N) inputs (initialize N) [] 0
              (initialize_length N) (initialize_tags N)
              (initialize_first_sweep N) (initialize_execution_counts N))
    as (rs & e' & R & Lr & Ln & _ & C & Hne).
  exists rs, e'. repeat split; try assumption; apply Hne; assumption.
Qed.

(** X8. Rounds of a role sweep followed by a wave, started on an engine of
    [N] new units, always run to the end: one result per round, still [N]
    units, every execution count equal to the number of rounds, and after at
    least one round unit [i] is in role [types[i % 6]] and has switched once
    if [i % 6] is not 0 and never otherwise: only the first sweep switches
    anything. *)
Theorem role_wave_rounds_fresh (N : nat) (inputs : list double) :
  exists (rs : list double) (e' : UniversalNodeEngine),
    role_wave_rounds inputs (initialize N) [] = Some (rs, e') /\
    length rs = length inputs /\
    length (nodes e') = N /\
    map execution_count (nodes e')
      = repeat (uint64 (Z.of_nat (length inputs))) N /\
    (inputs <> [] ->
     map current_type (nodes e') = role_pattern N /\
     map switch_count (nodes e') = pattern_switches N).
Proof. apply role_wave_rounds_initialize. Qed.

(** The sums of the statistics, over the lists of the counters. *)
Lemma total_from_map (f : UniversalNode -> Z) (ns : list UniversalNode) :
  forall a : Z,
    fold_left (fun total n => uint64 (total + f n)) ns a
    = fold_left (fun total c => uint64 (total + c)) (map f ns) a.
Proof.
  induction ns as [|n rest IH]; intros a; cbn [fold_left map]; [reflexivity|].
  apply IH.
Qed.

Lemma wrapped_sum (l : list Z) :
  forall a : Z,
    uint64 (fold_left (fun total c => uint64 (total + c)) l a)
    = uint64 (a + fold_right Z.add 0 l).
Proof.
  induction l as [|c l IH]; intros a; cbn [fold_left fold_right].
  - rewrite Z.add_0_r. reflexivity.
  - rewrite IH, uint64_succ_idem. f_equal. lia.
Qed.

Lemma wrapped_sum_reduced (l : list Z) :
  forall a : Z,
    uint64 a = a ->
    uint64 (fold_left (fun total c => uint64 (total + c)) l a)
    = fold_left (fun total c => uint64 (total + c)) l a.
Proof.
  induction l as [|c l IH]; intros a Ha; cbn [fold_left]; [exact Ha|].
  apply IH. unfold uint64, wrap. apply Zmod_mod.
Qed.

Lemma sum_of_successors (l : list Z) :
  uint64 (fold_right Z.add 0 (map (fun c => uint64 (c + 1)) l))
  = uint64 (fold_right Z.add 0 l + Z.of_nat (length l)).
Proof.
  induction l as [|c l IH]; cbn [map fold_right length]; [reflexivity|].
  rewrite Nat2Z.inj_succ. unfold uint64, wrap in *.
  rewrite Zplus_mod, Zmod_mod, IH, <- Zplus_mod. f_equal. lia.
Qed.

(** X9. The statistics follow the waves: nothing is reported for an engine
    without nodes; a wave that returns adds the number of units to the total
    of executions (as a 64-bit sum) and leaves the total of switches. *)
Theorem getPerformanceStats_after_wave
    (e e' : UniversalNodeEngine) (base_input average : double) :
  executeWave e base_input = Some (average, e') ->
  total_executions (nodes e')
    = uint64 (total_executions (nodes e) + Z.of_nat (length (nodes e))) /\
  total_switches (nodes e') = total_switches (nodes e) /\
  (getPerformanceStats e = None <-> nodes e = []) /\
  (getPerformanceStats e' = None <-> nodes e = []).
Proof.
  intros H. destruct (wave_frame_of _ _ _ _ H) as (T & Sw & C).
  assert (L : length (nodes e') = length (nodes e)).
  { rewrite <- (length_map current_type (nodes e')), T. apply length_map. }
  unfold total_executions, total_switches, getSwitchCount, getExecutionCount.
  rewrite !total_from_map, Sw, C.
  split.
  { rewrite <- wrapped_sum_reduced by reflexivity.
    rewrite wrapped_sum, Z.add_0_l.
    rewrite <- (map_map execution_count (fun c => uint64 (c + 1))).
    rewrite sum_of_successors, length_map.
    rewrite <- (uint64_succ_idem (fold_left _ _ _)), wrapped_sum, Z.add_0_l.
    rewrite uint64_succ_idem. reflexivity. }
  split; [reflexivity|].
  unfold getPerformanceStats.
  split.
  - destruct (nodes e); split; intros; congruence.
  - destruct (nodes e') as [|n' l'], (nodes e) as [|n l];
      split; intros; try congruence; discriminate L.
Qed.

Lemma getPerformanceStats_nodes (e : UniversalNodeEngine) :
  length (nodes e) <> 0%nat ->
  getPerformanceStats e
  = Some {| stat_nodes := length (nodes e);
            stat_total_switches := total_switches (nodes e);
            stat_total_executions := total_executions (nodes e);
            stat_avg_switches :=
              total_switches (nodes e) / Z.of_nat (length (nodes e)) |}.
Proof.
  unfold getPerformanceStats. intros H.
  destruct (nodes e); [exfalso; apply H; reflexivity|reflexivity].
Qed.

(** X10. [run_standalone_engine] completes its five rounds with five
    results, and the statistics it then prints are 10 nodes, 8 switches in
    total, 50 executions in total and an average of 0 switches per node (the
    quotient of the integer division 8 / 10). *)
Theorem run_standalone_engine_stats :
  exists (rs : list double) (e' : UniversalNodeEngine),
    run_standalone_engine = Some (rs, e') /\
    length rs = 5%nat /\
    getPerformanceStats e'
      = Some {| stat_nodes := 10; stat_total_switches := 8;
                stat_total_executions := 50; stat_avg_switches := 0 |}.
Proof.
  unfold run_standalone_engine.
  destruct (role_wave_rounds_initialize 10
              (map (fun i => (2.0 + double_of_Z i * 0.5)%float) [0; 1; 2; 3; 4]))
    as (rs & e' & R & Lr & Ln & C & Hne).
  destruct Hne as (_ & Sw); [discriminate|].
  exists rs, e'. split; [exact R|]. split; [exact Lr|].
  rewrite getPerformanceStats_nodes by (rewrite Ln; discriminate).
  unfold total_switches, total_executions, getSwitchCount, getExecutionCount.
  rewrite !total_from_map, Sw, C, Ln. vm_compute. reflexivity.
Qed.

(** [getNode] on a new engine. *)
Lemma getNode_initialize (N index : nat) :
  getNode (initialize N) index
  = if (index <? N)%nat then Some (node_at (Z.of_nat index)) else None.
Proof.
  unfold getNode. rewrite initialize_length.
  destruct (index <? N)%nat eqn:E; [|reflexivity].
  unfold initialize. cbn [nodes].
  rewrite nth_error_map, nth_error_seq, E. reflexivity.
Qed.

Lemma int16_small (v : Z) : 0 <= v < 32768 -> int16 v = v.
Proof.
  intros H. unfold int16. rewrite wrap_small by (change (2 ^ 16) with 65536; lia).
  change (2 ^ 15) with 32768.
  destruct (Z.ltb_spec v 32768); [reflexivity|lia].
Qed.

(** X11. The unit [getNode] finds at [index] on a new engine is a worker
    with value 0 whose id is [index] modulo 65536; below index 3276800 its
    coordinates are the digits of the 10 x 10 tiling, from which the index
    is recovered as [x + 10 y + 100 z], so two such units at the same
    coordinates are the same unit. *)
Theorem initialize_tiling (N index : nat) (u : UniversalNode) :
  getNode (initialize N) index = Some u ->
  (index < N)%nat /\
  current_type u = WORKER /\
  data u = worker WorkerData_init /\
  node_id u = Z.of_nat index mod 65536 /\
  (Z.of_nat index < 3276800 ->
   0 <= x u < 10 /\ 0 <= y u < 10 /\ 0 <= z u < 32768 /\
   x u + 10 * y u + 100 * z u = Z.of_nat index /\
   forall (j : nat) (v : UniversalNode),
     Z.of_nat j < 3276800 -> getNode (initialize N) j = Some v ->
     (x v, y v, z v) = (x u, y u, z u) -> j = index).
Proof.
  rewrite getNode_initialize. intros H.
  destruct (Nat.ltb_spec index N) as [Hlt|]; [|discriminate H].
  assert (u = node_at (Z.of_nat index)) as -> by congruence.
  split; [exact Hlt|]. split; [reflexivity|]. split; [reflexivity|].
  split; [reflexivity|].
  assert (Coord : forall k : Z, 0 <= k < 3276800 ->
            x (node_at k) = k mod 10 /\
            y (node_at k) = (k / 10) mod 10 /\
            z (node_at k) = k / 100).
  { intros k Hk. cbn [node_at new_UniversalNode x y z].
    assert (0 <= k mod 10 < 10) by (apply Z.mod_pos_bound; lia).
    assert (0 <= (k / 10) mod 10 < 10) by (apply Z.mod_pos_bound; lia).
    assert (0 <= k / 100 < 32768).
    { split; [apply Z.div_pos; lia|apply Z.div_lt_upper_bound; lia]. }
    rewrite !int16_small by lia. repeat split. }
  assert (Digits : forall a : Z, 0 <= a ->
            a mod 10 + 10 * ((a / 10) mod 10) + 100 * (a / 100) = a).
  { intros a Ha.
    pose proof (Z.div_mod a 10 ltac:(lia)).
    pose proof (Z.div_mod (a / 10) 10 ltac:(lia)).
    assert (a / 10 / 10 = a / 100) by (rewrite Z.div_div; [reflexivity|lia|lia]).
    lia. }
  intros Hi. destruct (Coord (Z.of_nat index) ltac:(lia)) as (Hx & Hy & Hz).
  rewrite Hx, Hy, Hz.
  split; [apply Z.mod_pos_bound; lia|].
  split; [apply Z.mod_pos_bound; lia|].
  split; [split; [apply Z.div_pos; lia|apply Z.div_lt_upper_bound; lia]|].
  split; [apply Digits; lia|].
  intros j v Hj Hv Heq.
  rewrite getNode_initialize in Hv.
  destruct (Nat.ltb_spec j N); [|discriminate Hv].
  assert (v = node_at (Z.of_nat j)) as -> by congruence.
  destruct (Coord (Z.of_nat j) ltac:(lia)) as (Jx & Jy & Jz).
  rewrite Jx, Jy, Jz in Heq.
  injection Heq as E1 E2 E3.
  pose proof (Digits (Z.of_nat j) ltac:(lia)).
  pose proof (Digits (Z.of_nat index) ltac:(lia)).
  lia.
Qed.

(** X12. Ids and heights wrap: the id of the unit at index [i + 65536] is
    the id of the unit at [i], so an engine of more than 65536 units holds
    two units with id 0, at indices 0 and 65536; and the unit at index
    3276800 gets the height -32768. *)
Theorem node_at_wraps :
  (forall i : Z, node_id (node_at (i + 65536)) = node_id (node_at i)) /\
  (forall N : nat, 65536 < Z.of_nat N ->
     exists u v : UniversalNode,
       getNode (initialize N) 0 = Some u /\
       getNode (initialize N) (Z.to_nat 65536) = Some v /\
       node_id u = 0 /\ node_id v = 0) /\
  z (node_at 3276799) = 32767 /\
  z (node_at 3276800) = -32768.
Proof.
  split.
  { intros i. cbn [node_at new_UniversalNode node_id]. unfold uint16, wrap.
    change (2 ^ 16) with 65536.
    replace (i + 65536) with (i + 1 * 65536) by lia.
    apply Z.mod_add. lia. }
  split.
  { intros N HN. exists (node_at 0), (node_at 65536). rewrite !getNode_initialize.
    assert (E0 : (0 <? N)%nat = true) by (apply Nat.ltb_lt; lia).
    assert (E1 : (Z.to_nat 65536 <? N)%nat = true) by (apply Nat.ltb_lt; lia).
    rewrite E0, E1, Z2Nat.id by lia. repeat split. }
  split; vm_compute; reflexivity.
Qed.

End EngineRuns.

Lemma executeWave_frame_witness :
  exists (average : double) (e' : DASE.UniversalNodeEngine),
    DASE.executeWave (P := sample_platform) (DASE.initialize 4) 1.0
      = Some (average, e') /\
    length (DASE.nodes e') = length (DASE.nodes (DASE.initialize 4)).
Proof.
  destruct (executeWave_defined (P := sample_platform) (DASE.initialize 4) 1.0%float
              (initialize_tags 4)) as (average & e' & H & _).
  exists average, e'. split; [exact H|].
  exact (proj1 (executeWave_frame (P := sample_platform) _ _ _ _ H)).
Defined.

Lemma getPerformanceStats_after_wave_witness :
  exists (average : double) (e' : DASE.UniversalNodeEngine),
    DASE.executeWave (P := sample_platform) (DASE.initialize 4) 1.0
      = Some (average, e') /\
    DASE.total_executions (DASE.nodes e')
      = uint64 (DASE.total_executions (DASE.nodes (DASE.initialize 4))
                + Z.of_nat (length (DASE.nodes (DASE.initialize 4)))).
Proof.
  destruct (executeWave_defined (P := sample_platform) (DASE.initialize 4) 1.0%float
              (initialize_tags 4)) as (average & e' & H & _).
  exists average, e'. split; [exact H|].
  exact (proj1 (getPerformanceStats_after_wave (P := sample_platform) _ _ _ _ H)).
Defined.

Lemma initialize_tiling_witness :
  DASE.getNode (DASE.initialize 3) 2 = Some (DASE.node_at 2) /\
  DASE.node_id (DASE.node_at 2) = 2 mod 65536.
Proof.
  assert (H : DASE.getNode (DASE.initialize 3) 2 = Some (DASE.node_at 2))
    by reflexivity.
  split; [exact H|].
  exact (proj1 (proj2 (proj2 (proj2 (initialize_tiling 3 2 _ H))))).
Defined.

(** * Further properties of the analog node and its engine *)

Lemma Prim2SF_tenth : Prim2SF 0.1 = sf_tenth.
Proof. vm_compute. reflexivity. Qed.

Lemma Prim2SF_ten : Prim2SF 10.0 = sf_ten.
Proof. vm_compute. reflexivity. Qed.

Lemma SFcompare_defined (a b : spec_float) :
  a <> S754_nan -> b <> S754_nan -> exists c, SFcompare a b = Some c.
Proof.
  intros Ha Hb.
  destruct a as [sa|sa| |sa ma ea], b as [sb|sb| |sb mb eb];
    try congruence; cbn; eauto.
Qed.

Lemma SFltb_false_SFleb (a b : spec_float) :
  a <> S754_nan -> b <> S754_nan -> SFltb a b = false -> SFleb b a = true.
Proof.
  intros Ha Hb. unfold SFltb, SFleb. rewrite (SFcompare_antisym b a).
  destruct (SFcompare_defined a b Ha Hb) as (c & ->).
  destruct c; cbn; congruence.
Qed.

Lemma SFleb_true_SFltb (a b : spec_float) :
  SFleb a b = true -> SFltb b a = false.
Proof.
  unfold SFltb, SFleb. rewrite (SFcompare_antisym b a).
  destruct (SFcompare a b) as [[| |]|]; cbn; congruence.
Qed.

Lemma SFleb_not_nan (a b : spec_float) :
  SFleb a b = true -> a <> S754_nan /\ b <> S754_nan.
Proof.
  unfold SFleb. destruct a, b; cbn; intros H; split; congruence.
Qed.

(** Nothing lies below a positive bound and above a larger one. *)
Lemma SFltb_between (K1 K2 : positive) (E1 E2 : Z) (s : spec_float) :
  E1 < E2 ->
  SFltb (S754_finite false K2 E2) s = true ->
  SFltb s (S754_finite false K1 E1) = false.
Proof.
  intros HE. unfold SFltb.
  destruct s as [sg|sg| |sg m e]; try destruct sg; cbn; try congruence.
  destruct (Z.compare_spec E2 e), (Z.compare_spec e E1);
    try congruence; try lia.
Qed.

Lemma double_nan_decoded (c : double) : Prim2SF c = S754_nan -> c = nan.
Proof.
  intros H. rewrite <- (SF2Prim_Prim2SF c), H. reflexivity.
Qed.

Lemma add_nan_r (f : double) : (f + nan)%float = nan.
Proof.
  apply double_nan_decoded. rewrite add_spec.
  change (Prim2SF nan) with S754_nan.
  destruct (Prim2SF f) as [sg|sg| |sg m e]; reflexivity.
Qed.

Section AnalogNode.
Import Analog.

(** X13. [setFeedback] with a coefficient that is a number leaves the gain
    between 0.1 and 10.0: the coefficient itself when it lies in that range,
    0.1 when it is below and 10.0 when it is above. *)
Theorem setFeedback_clamps (n : AnalogUniversalNode) (c : double) :
  is_nan c = false ->
  (0.1 <=? feedback_gain (setFeedback n c))%float = true /\
  (feedback_gain (setFeedback n c) <=? 10.0)%float = true /\
  ((0.1 <=? c)%float = true -> (c <=? 10.0)%float = true ->
   feedback_gain (setFeedback n c) = c) /\
  ((c <? 0.1)%float = true -> feedback_gain (setFeedback n c) = 0.1%float) /\
  ((10.0 <? c)%float = true -> feedback_gain (setFeedback n c) = 10.0%float).
Proof.
  intros Hnan. cbn [setFeedback feedback_gain]. unfold clamp.
  assert (Hc : Prim2SF c <> S754_nan).
  { intros E. apply is_nan_Prim2SF in E. congruence. }
  assert (Hlo : sf_tenth <> S754_nan) by discriminate.
  assert (Hhi : sf_ten <> S754_nan) by discriminate.
  assert (Hbetween : (10.0 <? c)%float = true -> (c <? 0.1)%float = false).
  { rewrite !ltb_spec, Prim2SF_tenth, Prim2SF_ten.
    apply SFltb_between. lia. }
  split.
  { destruct (c <? 0.1)%float eqn:E1; [vm_compute; reflexivity|].
    destruct (10.0 <? c)%float eqn:E2; [vm_compute; reflexivity|].
    rewrite leb_spec, Prim2SF_tenth.
    rewrite ltb_spec, Prim2SF_tenth in E1.
    apply SFltb_false_SFleb; assumption. }
  split.
  { destruct (c <? 0.1)%float eqn:E1; [vm_compute; reflexivity|].
    destruct (10.0 <? c)%float eqn:E2; [vm_compute; reflexivity|].
    rewrite leb_spec, Prim2SF_ten.
    rewrite ltb_spec, Prim2SF_ten in E2.
    apply SFltb_false_SFleb; assumption. }
  split.
  { intros H1 H2.
    rewrite leb_spec in H1, H2. apply SFleb_true_SFltb in H1, H2.
    rewrite <- ltb_spec in H1, H2. rewrite H1, H2. reflexivity. }
  split.
  { intros ->. reflexivity. }
  intros H. rewrite (Hbetween H), H. reflexivity.
Qed.

(** X14. [setFeedback] does not filter a coefficient that is not a number:
    it becomes the gain, which is then outside the range 0.1 to 10.0. *)
Theorem setFeedback_nan (n : AnalogUniversalNode) (c : double) :
  is_nan c = true ->
  feedback_gain (setFeedback n c) = c /\
  is_nan (feedback_gain (setFeedback n c)) = true /\
  (0.1 <=? feedback_gain (setFeedback n c))%float = false /\
  (feedback_gain (setFeedback n c) <=? 10.0)%float = false.
Proof.
  intros Hnan. cbn [setFeedback feedback_gain]. unfold clamp.
  assert (E : Prim2SF c = S754_nan) by (apply is_nan_Prim2SF; exact Hnan).
  assert (E1 : (c <? 0.1)%float = false) by (rewrite ltb_spec, E; reflexivity).
  assert (E2 : (10.0 <? c)%float = false).
  { rewrite ltb_spec, E. unfold SFltb. destruct (Prim2SF 10.0); reflexivity. }
  rewrite E1, E2. split; [reflexivity|]. split; [exact Hnan|].
  rewrite !leb_spec, E. split; [|reflexivity].
  unfold SFleb. destruct (Prim2SF 0.1); reflexivity.
Qed.

(** X15. Whatever the mode, [processSignal] stores its result as the
    current output, adds one to the operation count (a 64-bit counter) and
    leaves the gain, the coordinates and the id; the integrator state can
    change only when control > 0.5 and the previous input only when control
    < -0.5; and the auxiliary signal has no effect at all. *)
Theorem processSignal_frame
    (n : AnalogUniversalNode) (input control aux : double) :
  current_output (snd (processSignal n input control aux))
    = fst (processSignal n input control aux) /\
  operation_count (snd (processSignal n input control aux))
    = uint64 (operation_count n + 1) /\
  feedback_gain (snd (processSignal n input control aux)) = feedback_gain n /\
  cell_placement (snd (processSignal n input control aux)) = cell_placement n /\
  ((0.5 <? control)%float = false ->
   integrator_state (snd (processSignal n input control aux))
     = integrator_state n) /\
  ((control <? -0.5)%float = false ->
   previous_input (snd (processSignal n input control aux)) = previous_input n) /\
  (forall aux' : double,
     processSignal n input control aux' = processSignal n input control aux).
Proof.
  unfold processSignal, cell_placement.
  destruct (0.5 <? control)%float; [repeat split; intros; congruence|].
  destruct (control <? -0.5)%float; [repeat split; intros; congruence|].
  destruct (0.0 <? control)%float; repeat split.
Qed.

Lemma int_iterations_small (k : nat) :
  Z.of_nat k < 2 ^ 31 -> int_iterations k = k.
Proof.
  intros H. unfold int_iterations, int32, wrap.
  rewrite Z.mod_small by lia.
  destruct (Z.ltb_spec (Z.of_nat k) (2 ^ 31)); [apply Nat2Z.id | lia].
Qed.

Lemma int_iterations_all (A : Type) (l : list A) :
  Z.of_nat (length l) < 2 ^ 31 ->
  firstn (int_iterations (length l)) l = l /\
  skipn (int_iterations (length l)) l = [].
Proof.
  intros H. rewrite (int_iterations_small _ H).
  split; [apply firstn_all | apply skipn_all].
Qed.

Lemma resetAllIntegrators_all (e : AnalogCellularEngine) :
  Z.of_nat (length (nodes e)) < 2 ^ 31 ->
  resetAllIntegrators e
  = {| nodes := map resetIntegrator (nodes e);
       system_frequency := system_frequency e; noise_level := noise_level e |}.
Proof.
  intros H. unfold resetAllIntegrators.
  destruct (int_iterations_all _ (nodes e) H) as [-> ->].
  rewrite app_nil_r. reflexivity.
Qed.

Lemma setSystemFeedback_all (e : AnalogCellularEngine) (level : double) :
  Z.of_nat (length (nodes e)) < 2 ^ 31 ->
  setSystemFeedback e level
  = {| nodes := map (fun n => setFeedback n level) (nodes e);
       system_frequency := system_frequency e; noise_level := noise_level e |}.
Proof.
  intros H. unfold setSystemFeedback.
  destruct (int_iterations_all _ (nodes e) H) as [-> ->].
  rewrite app_nil_r. reflexivity.
Qed.

(** From [2^31] nodes up to [2^32], the size converted to [int] is negative
    and the loops do not run. *)
Lemma int_iterations_negative (k : nat) :
  2 ^ 31 <= Z.of_nat k < 2 ^ 32 -> int_iterations k = 0%nat.
Proof.
  intros H. unfold int_iterations, int32, wrap.
  rewrite Z.mod_small by lia.
  destruct (Z.ltb_spec (Z.of_nat k) (2 ^ 31)); [lia|].
  lia.
Qed.

Lemma resetAllIntegrators_beyond_int (e : AnalogCellularEngine) (level : double) :
  2 ^ 31 <= Z.of_nat (length (nodes e)) < 2 ^ 32 ->
  resetAllIntegrators e = e /\ setSystemFeedback e level = e.
Proof.
  intros H. unfold resetAllIntegrators, setSystemFeedback.
  rewrite (int_iterations_negative _ H). destruct e. split; reflexivity.
Qed.

(** X16. On an engine whose number of nodes is an [int] value, resetting the
    integrators and setting the system feedback reach every node; they touch
    different members, so they commute; each keeps the number of nodes and is
    idempotent; after the first every node has integrator state and previous
    input 0.0, after the second every node has the same clamped gain. *)
Theorem resetAllIntegrators_setSystemFeedback
    (e : AnalogCellularEngine) (level : double) :
  Z.of_nat (length (nodes e)) < 2 ^ 31 ->
  resetAllIntegrators (setSystemFeedback e level)
    = setSystemFeedback (resetAllIntegrators e) level /\
  resetAllIntegrators (resetAllIntegrators e) = resetAllIntegrators e /\
  setSystemFeedback (setSystemFeedback e level) level = setSystemFeedback e level /\
  length (nodes (resetAllIntegrators e)) = length (nodes e) /\
  length (nodes (setSystemFeedback e level)) = length (nodes e) /\
  Forall (fun n => integrator_state n = 0.0%float /\ previous_input n = 0.0%float)
         (nodes (resetAllIntegrators e)) /\
  Forall (fun n => feedback_gain n = clamp level 0.1 10.0)
         (nodes (setSystemFeedback e level)) /\
  map feedback_gain (nodes (resetAllIntegrators e)) = map feedback_gain (nodes e) /\
  map integrator_state (nodes (setSystemFeedback e level))
    = map integrator_state (nodes e).
Proof.
  intros B.
  assert (Br : Z.of_nat (length (nodes (resetAllIntegrators e))) < 2 ^ 31).
  { rewrite (resetAllIntegrators_all e B). cbn [nodes]. rewrite length_map. exact B. }
  assert (Bs : Z.of_nat (length (nodes (setSystemFeedback e level))) < 2 ^ 31).
  { rewrite (setSystemFeedback_all e level B). cbn [nodes]. rewrite length_map. exact B. }
  rewrite (resetAllIntegrators_all _ Bs), (setSystemFeedback_all _ level Br),
          (resetAllIntegrators_all _ Br), (setSystemFeedback_all _ level Bs).
  rewrite (resetAllIntegrators_all e B), (setSystemFeedback_all e level B).
  cbn [nodes system_frequency noise_level].
  rewrite !map_map, !length_map.
  repeat split.
  - apply Forall_map, Forall_forall. intros n _. split; reflexivity.
  - apply Forall_map, Forall_forall. intros n _. reflexivity.
Qed.

End AnalogNode.

Section AnalogWaves.
Import Analog.
Context {L : Libm}.

Lemma pass_step_frame (i : Z) (input cp : double)
    (st : double * AnalogUniversalNode) (pass : Z) :
  operation_count (snd (pass_step i input cp st pass))
    = uint64 (operation_count (snd st) + 1) /\
  feedback_gain (snd (pass_step i input cp st pass)) = feedback_gain (snd st) /\
  cell_placement (snd (pass_step i input cp st pass)) = cell_placement (snd st).
Proof.
  unfold pass_step. cbn [snd]. unfold processSignal, cell_placement.
  destruct (0.5 <? _)%float; [repeat split|].
  destruct (_ <? -0.5)%float; [repeat split|].
  destruct (0.0 <? _)%float; repeat split.
Qed.

Lemma passes_frame (i : Z) (input cp : double) (passes : list Z) :
  forall st : double * AnalogUniversalNode,
    uint64 (operation_count
              (snd (fold_left (pass_step i input cp) passes st)))
      = uint64 (operation_count (snd st) + Z.of_nat (length passes)) /\
    (passes <> [] ->
     operation_count (snd (fold_left (pass_step i input cp) passes st))
       = uint64 (operation_count (snd st) + Z.of_nat (length passes))) /\
    feedback_gain (snd (fold_left (pass_step i input cp) passes st))
      = feedback_gain (snd st) /\
    cell_placement (snd (fold_left (pass_step i input cp) passes st))
      = cell_placement (snd st).
Proof.
  induction passes as [|pass rest IH]; intros st; cbn [fold_left length].
  - rewrite Z.add_0_r. repeat split. congruence.
  - destruct (pass_step_frame i input cp st pass) as (C & G & Pl).
    destruct (IH (pass_step i input cp st pass)) as (C2 & C2' & G2 & Pl2).
    rewrite Nat2Z.inj_succ.
    assert (E : uint64 (operation_count (snd (pass_step i input cp st pass))
                        + Z.of_nat (length rest))
                = uint64 (operation_count (snd st) + Z.succ (Z.of_nat (length rest)))).
    { rewrite C, uint64_succ_idem. f_equal. lia. }
    split; [rewrite C2; exact E|].
    split.
    { intros _. destruct rest as [|p2 rest2].
      - cbn [fold_left length Z.of_nat]. rewrite C. reflexivity.
      - rewrite C2' by discriminate. exact E. }
    split; congruence.
Qed.

Lemma signal_loop_frame (ns : list AnalogUniversalNode) (input cp : double) :
  forall (i : nat) (total : double),
    length (snd (signal_loop i ns input cp total)) = length ns /\
    map operation_count (snd (signal_loop i ns input cp total))
      = map (fun n => uint64 (operation_count n + 10)) ns /\
    map feedback_gain (snd (signal_loop i ns input cp total))
      = map feedback_gain ns /\
    map cell_placement (snd (signal_loop i ns input cp total))
      = map cell_placement ns.
Proof.
  induction ns as [|n rest IH]; intros i total; cbn [signal_loop snd length map].
  - repeat split.
  - unfold node_passes.
    destruct (passes_frame (Z.of_nat i) input cp (map Z.of_nat (seq 0 10)) (total, n))
      as (_ & C & G & Pl).
    specialize (C ltac:(discriminate)). cbn [snd] in C, G, Pl.
    match goal with
    | |- context [signal_loop (S i) rest input cp ?t] =>
        destruct (IH (S i) t) as (L2 & C2 & G2 & Pl2)
    end.
    rewrite L2, C2, G2, Pl2, C, G, Pl. repeat split.
Qed.

(** X17. [processSignalWave] has no guard for an engine without nodes: the
    sum 0.0 is divided by 0 times 10, so the result is not a number (where
    [executeWave] of the universal engine returns 0.0), and a signal sweep of
    such an engine turns its system frequency into NaN as well. *)
Theorem processSignalWave_no_nodes
    (e : AnalogCellularEngine) (input_signal control_pattern : double) :
  nodes e = [] ->
  processSignalWave e input_signal control_pattern = (nan, e) /\
  forall time_counter base_frequency : double,
    system_frequency (snd (performSignalSweep time_counter e base_frequency)) = nan /\
    nodes (snd (performSignalSweep time_counter e base_frequency)) = [].
Proof.
  intros H.
  assert (W : forall a b : double, processSignalWave e a b = (nan, e)).
  { intros a b. unfold processSignalWave. rewrite H, firstn_nil, skipn_nil.
    cbn [signal_loop fst snd length app].
    assert (D : (0.0 / (double_of_Z (Z.of_nat 0) * 10.0))%float = nan)
      by (vm_compute; reflexivity).
    rewrite D. destruct e as [ns f nl]. cbn in H. subst ns. reflexivity. }
  split; [apply W|].
  intros tc bf. unfold performSignalSweep. rewrite W. cbn [fst snd system_frequency nodes].
  assert (N : (nan * 0.001)%float = nan) by (vm_compute; reflexivity).
  rewrite N, add_nan_r. split; [reflexivity|exact H].
Qed.

(** X18. On an engine whose number of nodes is an [int] value, a signal wave
    keeps the number of nodes and every node's gain, coordinates and id, and
    runs every node exactly ten times: each operation count goes up by 10 (as
    a 64-bit counter). The wave leaves the system frequency and the noise
    level; a signal sweep has the same effect on the nodes and advances the
    time counter by 0.001. *)
Theorem processSignalWave_frame
    (e : AnalogCellularEngine) (input_signal control_pattern : double) :
  Z.of_nat (length (nodes e)) < 2 ^ 31 ->
  length (nodes (snd (processSignalWave e input_signal control_pattern)))
    = length (nodes e) /\
  map operation_count (nodes (snd (processSignalWave e input_signal control_pattern)))
    = map (fun n => (operation_count n + 10) mod 2 ^ 64) (nodes e) /\
  map feedback_gain (nodes (snd (processSignalWave e input_signal control_pattern)))
    = map feedback_gain (nodes e) /\
  map cell_placement (nodes (snd (processSignalWave e input_signal control_pattern)))
    = map cell_placement (nodes e) /\
  system_frequency (snd (processSignalWave e input_signal control_pattern))
    = system_frequency e /\
  noise_level (snd (processSignalWave e input_signal control_pattern))
    = noise_level e /\
  forall time_counter base_frequency : double,
    fst (performSignalSweep time_counter e base_frequency)
      = (time_counter + 0.001)%float /\
    map operation_count
        (nodes (snd (performSignalSweep time_counter e base_frequency)))
      = map (fun n => (operation_count n + 10) mod 2 ^ 64) (nodes e) /\
    map feedback_gain
        (nodes (snd (performSignalSweep time_counter e base_frequency)))
      = map feedback_gain (nodes e).
Proof.
  intros B.
  assert (W : forall a b : double,
            length (nodes (snd (processSignalWave e a b))) = length (nodes e) /\
            map operation_count (nodes (snd (processSignalWave e a b)))
              = map (fun n => uint64 (operation_count n + 10)) (nodes e) /\
            map feedback_gain (nodes (snd (processSignalWave e a b)))
              = map feedback_gain (nodes e) /\
            map cell_placement (nodes (snd (processSignalWave e a b)))
              = map cell_placement (nodes e)).
  { intros a b. unfold processSignalWave. cbn [snd nodes].
    destruct (int_iterations_all _ (nodes e) B) as [-> ->].
    rewrite app_nil_r. apply signal_loop_frame. }
  destruct (W input_signal control_pattern) as (W1 & W2 & W3 & W4).
  split; [exact W1|]. split; [exact W2|]. split; [exact W3|]. split; [exact W4|].
  split; [reflexivity|]. split; [reflexivity|].
  intros tc bf. unfold performSignalSweep. cbn [fst snd nodes].
  match goal with
  | |- context [processSignalWave e ?a ?b] =>
      destruct (W a b) as (_ & V2 & V3 & _)
  end.
  split; [reflexivity|]. split; assumption.
Qed.

Lemma nodes_new_AnalogCellularEngine (N i : nat) :
  nth_error (nodes (new_AnalogCellularEngine N)) i
  = if (i <? N)%nat then Some (cell_at (Z.of_nat i)) else None.
Proof.
  unfold new_AnalogCellularEngine. cbn [nodes].
  rewrite nth_error_map, nth_error_seq.
  destruct (i <? N)%nat; reflexivity.
Qed.

(** X19. The analog engine is built with the number of nodes asked for, a
    system frequency of 1.0 and a noise level of 0.001; the node at index [i]
    is a fresh one (output, integrator state and previous input 0.0, gain
    1.0, no operations) and is laid out as in the universal engine: id [i]
    modulo 65536 and, below index 3276800, coordinates with
    [x + 10 y + 100 z = i]. *)
Theorem new_AnalogCellularEngine_layout (N i : nat) :
  getNodeCount (new_AnalogCellularEngine N) = N /\
  system_frequency (new_AnalogCellularEngine N) = 1.0%float /\
  noise_level (new_AnalogCellularEngine N) = 0.001%float /\
  ((i < N)%nat ->
   exists n : AnalogUniversalNode,
     nth_error (nodes (new_AnalogCellularEngine N)) i = Some n /\
     (current_output n, integrator_state n, previous_input n, feedback_gain n)
       = (0.0, 0.0, 0.0, 1.0)%float /\
     operation_count n = 0 /\
     node_id n = Z.of_nat i mod 65536 /\
     cell_placement n = placement (DASE.node_at (Z.of_nat i)) /\
     (Z.of_nat i < 3276800 ->
      0 <= x n < 10 /\ 0 <= y n < 10 /\ 0 <= z n < 32768 /\
      x n + 10 * y n + 100 * z n = Z.of_nat i)).
Proof.
  split.
  { unfold getNodeCount, new_AnalogCellularEngine. cbn [nodes].
    rewrite length_map. apply length_seq. }
  split; [reflexivity|]. split; [reflexivity|].
  intros Hi. exists (cell_at (Z.of_nat i)).
  rewrite nodes_new_AnalogCellularEngine.
  assert (E : (i <? N)%nat = true) by (apply Nat.ltb_lt; exact Hi).
  rewrite E. split; [reflexivity|]. split; [reflexivity|]. split; [reflexivity|].
  split; [reflexivity|]. split; [reflexivity|].
  intros Hb. cbn [cell_at x y z].
  assert (0 <= Z.of_nat i mod 10 < 10) by (apply Z.mod_pos_bound; lia).
  assert (0 <= (Z.of_nat i / 10) mod 10 < 10) by (apply Z.mod_pos_bound; lia).
  assert (0 <= Z.of_nat i / 100 < 32768).
  { split; [apply Z.div_pos; lia|apply Z.div_lt_upper_bound; lia]. }
  rewrite !int16_small by lia.
  pose proof (Z.div_mod (Z.of_nat i) 10 ltac:(lia)).
  pose proof (Z.div_mod (Z.of_nat i / 10) 10 ltac:(lia)).
  assert (Z.of_nat i / 10 / 10 = Z.of_nat i / 100)
    by (rewrite Z.div_div; [reflexivity|lia|lia]).
  lia.
Qed.

End AnalogWaves.

Lemma setFeedback_clamps_witness :
  is_nan 25.0 = false /\
  Analog.feedback_gain (Analog.setFeedback Analog.new_AnalogUniversalNode 25.0)
    = 10.0%float.
Proof.
  assert (H : is_nan 25.0 = false) by reflexivity.
  split; [exact H|].
  exact (proj2 (proj2 (proj2 (proj2
    (setFeedback_clamps Analog.new_AnalogUniversalNode 25.0%float H)))) eq_refl).
Defined.

Lemma setFeedback_nan_witness :
  is_nan nan = true /\
  Analog.feedback_gain (Analog.setFeedback Analog.new_AnalogUniversalNode nan) = nan.
Proof.
  assert (H : is_nan nan = true) by reflexivity.
  split; [exact H|].
  exact (proj1 (setFeedback_nan Analog.new_AnalogUniversalNode nan H)).
Defined.

Lemma processSignalWave_no_nodes_witness :
  Analog.processSignalWave (L := sample_libm) (Analog.new_AnalogCellularEngine 0)
    1.0 1.0
  = (nan, Analog.new_AnalogCellularEngine 0).
Proof.
  exact (proj1 (processSignalWave_no_nodes (L := sample_libm)
                  (Analog.new_AnalogCellularEngine 0) 1.0%float 1.0%float eq_refl)).
Defined.

Lemma resetAllIntegrators_setSystemFeedback_witness :
  Z.of_nat (length (Analog.nodes (Analog.new_AnalogCellularEngine 3))) < 2 ^ 31 /\
  Analog.resetAllIntegrators
    (Analog.setSystemFeedback (Analog.new_AnalogCellularEngine 3) 25.0)
  = Analog.setSystemFeedback
      (Analog.resetAllIntegrators (Analog.new_AnalogCellularEngine 3)) 25.0 /\
  Forall (fun n => Analog.feedback_gain n = Analog.clamp 25.0 0.1 10.0)
         (Analog.nodes (Analog.setSystemFeedback (Analog.new_AnalogCellularEngine 3) 25.0)).
Proof.
  assert (H : Z.of_nat (length (Analog.nodes (Analog.new_AnalogCellularEngine 3)))
              < 2 ^ 31) by (vm_compute; reflexivity).
  split; [exact H|].
  destruct (resetAllIntegrators_setSystemFeedback
              (Analog.new_AnalogCellularEngine 3) 25.0%float H)
    as (C & _ & _ & _ & _ & _ & G & _).
  split; [exact C | exact G].
Defined.

Lemma processSignalWave_frame_witness :
  Z.of_nat (length (Analog.nodes (Analog.new_AnalogCellularEngine 3))) < 2 ^ 31 /\
  map Analog.operation_count
      (Analog.nodes (snd (Analog.processSignalWave (L := sample_libm)
                            (Analog.new_AnalogCellularEngine 3) 1.0 0.2)))
  = map (fun n => (Analog.operation_count n + 10) mod 2 ^ 64)
        (Analog.nodes (Analog.new_AnalogCellularEngine 3)).
Proof.
  assert (H : Z.of_nat (length (Analog.nodes (Analog.new_AnalogCellularEngine 3)))
              < 2 ^ 31) by (vm_compute; reflexivity).
  split; [exact H|].
  exact (proj1 (proj2 (processSignalWave_frame (L := sample_libm)
                         (Analog.new_AnalogCellularEngine 3) 1.0%float 0.2%float H))).
Defined.
